(** * BarcodeGen: label layout and input validation

    A shallow embedding of [app.py] and [make_custom_barcodes.py].

    Numbers.  The Python code computes the geometry with [float]s.  The
    layout routines are embedded once, over an interface [Number] of the
    arithmetic they use, and the interface is instantiated twice:
    - at [Q], exact rational arithmetic, where the geometric laws of the
      layout (sums, quotients, orderings) are proved for every module count;
    - at [float], the IEEE 754 binary64 numbers of the kernel, which are the
      numbers Python computes with: there the layout is evaluated bit for
      bit on concrete inputs, and what does not depend on the module count
      (heights, vertical placement, the absence of a division by zero) is
      proved for every input.

    Strings.  Python [str] values are embedded as [string]; the text handled
    by the program (colour codes, series letters, serial numbers) is ASCII,
    and [strip], [upper] and [isdigit] are embedded on ASCII characters.

    Collaborators.  The Code 128 encoder and the PDF canvas of reportlab are
    outside the repository.  The encoder is a parameter (the width it
    reports for a text, bar height and bar width); the canvas is embedded as
    the list of drawing operations issued on it, in order. *)

From Stdlib Require Import ZArith QArith Qminmax Lqa Lia Bool List.
From Stdlib Require Import Ascii String DecimalString PrimFloat Uint63 Floats.
From stdpp Require Import gmap strings.
Import ListNotations.

(** ** Exceptions and results *)

Inductive exn : Type :=
| ValueError (msg : string)
| KeyError (key : string)
| ZeroDivisionError.

Inductive result (A : Type) : Type :=
| Ok (a : A)
| Raise (e : exn).
Arguments Ok {A} a.
Arguments Raise {A} e.

(** Sequencing: an exception raised by a step is the outcome of the whole
    computation.  With these two instances [x ← r; k] reads as a step
    [x = r] followed by [k]. *)
#[global] Instance result_ret : MRet result := fun _ a => Ok a.
#[global] Instance result_bind : MBind result := fun _ _ k r =>
  match r with
  | Ok a => k a
  | Raise e => Raise e
  end.

(** ** The arithmetic of the layout *)

(** [lit q] is the number written by the literal [q] in the source;
    [ndiv] is the quotient by a non-zero divisor ([py_div] below adds what
    Python does on a zero one). *)
Class Number (T : Type) : Type := {
  lit : Q -> T;
  nadd : T -> T -> T;
  nsub : T -> T -> T;
  nmul : T -> T -> T;
  ndiv : T -> T -> T;
  nzero : T -> bool;
  nlt : T -> T -> bool;
  nle : T -> T -> bool
}.
Arguments lit {T _} q%_Q.

Declare Scope num_scope.
Delimit Scope num_scope with num.
Infix "+" := nadd : num_scope.
Infix "-" := nsub : num_scope.
Infix "*" := nmul : num_scope.
Infix "/" := ndiv : num_scope.
Infix "<?" := nlt : num_scope.
Infix "<=?" := nle : num_scope.

(** Exact rationals. *)
#[global] Instance Q_Number : Number Q := {|
  lit := fun q => q;
  nadd := Qplus;
  nsub := Qminus;
  nmul := Qmult;
  ndiv := Qdiv;
  nzero := fun q => Qeq_bool q 0;
  nlt := fun a b => negb (Qle_bool b a);
  nle := Qle_bool
|}.

(** Binary64.  A decimal literal denotes the float nearest to it, which is
    the correctly rounded quotient of its numerator and denominator, both
    exact as floats for the literals of this program. *)
Definition float_of_Z (z : Z) : float :=
  match z with
  | Z0 => PrimFloat.zero
  | Zpos _ => PrimFloat.of_uint63 (Uint63.of_Z z)
  | Zneg p => PrimFloat.opp (PrimFloat.of_uint63 (Uint63.of_Z (Zpos p)))
  end.

Definition float_of_literal (q : Q) : float :=
  PrimFloat.div (float_of_Z (Qnum q)) (float_of_Z (Zpos (Qden q))).

#[global] Instance float_Number : Number float := {|
  lit := float_of_literal;
  nadd := PrimFloat.add;
  nsub := PrimFloat.sub;
  nmul := PrimFloat.mul;
  ndiv := PrimFloat.div;
  nzero := fun x => PrimFloat.eqb x PrimFloat.zero;
  nlt := PrimFloat.ltb;
  nle := PrimFloat.leb
|}.

Section Python.
Context {T : Type} `{Number T}.
Local Open Scope num_scope.

(** [max(a, b)]: the first argument unless the second is greater. *)
Definition py_max (a b : T) : T := if a <? b then b else a.

(** [min(a, b)]: the first argument unless the second is smaller. *)
Definition py_min (a b : T) : T := if b <? a then b else a.

(** [a / b] on floats raises [ZeroDivisionError] when [b] is zero.  The
    program divides by a variable once, by the module count; its other
    divisors are the literals 25.4 and 2.0, written with [ndiv]. *)
Definition py_div (a b : T) : result T :=
  if nzero b then Raise ZeroDivisionError else Ok (a / b).
End Python.

(** ** Python strings *)

Section Strings.
Local Open Scope string_scope.

(** [ord(c)] *)
Definition ord (c : ascii) : N := N_of_ascii c.

(** [str.isspace] on an ASCII character: tab to carriage return, the four
    separators 28 to 31, and the space. *)
Definition isspace (c : ascii) : bool :=
  ((9 <=? ord c) && (ord c <=? 13) || (28 <=? ord c) && (ord c <=? 32))%N.

(** [s.lstrip()] *)
Fixpoint lstrip (s : string) : string :=
  match s with
  | String c s' => if isspace c then lstrip s' else s
  | EmptyString => EmptyString
  end.

(** [s.rstrip()]: a character goes when it is a space and nothing is left
    of what follows it. *)
Fixpoint rstrip (s : string) : string :=
  match s with
  | String c s' =>
      match rstrip s' with
      | EmptyString => if isspace c then EmptyString else String c EmptyString
      | r => String c r
      end
  | EmptyString => EmptyString
  end.

(** [s.strip()] *)
Definition strip (s : string) : string := rstrip (lstrip s).

Definition upper_char (c : ascii) : ascii :=
  if ((97 <=? ord c) && (ord c <=? 122))%N
  then ascii_of_N (ord c - 32) else c.

(** [s.upper()] *)
Fixpoint upper (s : string) : string :=
  match s with
  | String c s' => String (upper_char c) (upper s')
  | EmptyString => EmptyString
  end.

Definition isdigit_char (c : ascii) : bool :=
  ((48 <=? ord c) && (ord c <=? 57))%N.

Fixpoint all_digits (s : string) : bool :=
  match s with
  | String c s' => isdigit_char c && all_digits s'
  | EmptyString => true
  end.

(** [s.isdigit()]: at least one character, and all of them digits. *)
Definition isdigit (s : string) : bool :=
  match s with
  | EmptyString => false
  | _ => all_digits s
  end.

(** [len(s)] *)
Definition len (s : string) : Z := Z.of_nat (String.length s).

Fixpoint int_from (acc : Z) (s : string) : Z :=
  match s with
  | String c s' => int_from (10 * acc + (Z.of_N (ord c) - 48)) s'
  | EmptyString => acc
  end.

(** [int(s)] for a string of digits (the program calls it behind the
    [isdigit] test only). *)
Definition int (s : string) : Z := int_from 0 s.

(** [sep.join(l)] *)
Fixpoint join (sep : string) (l : list string) : string :=
  match l with
  | [] => ""
  | [a] => a
  | a :: l' => a ++ sep ++ join sep l'
  end.

(** [list(s)]: the characters of [s], each as a string. *)
Fixpoint chars (s : string) : list string :=
  match s with
  | String c s' => String c EmptyString :: chars s'
  | EmptyString => []
  end.

(** [str(n)] for [n >= 0] *)
Definition str_of_N (n : N) : string :=
  NilZero.string_of_uint (N.to_uint n).

Fixpoint zeros (k : nat) : string :=
  match k with
  | O => ""
  | S k' => String "0" (zeros k')
  end.

(** The format [{i:04d}]: the decimal digits of [i], padded on the left
    with zeros to four characters, a minus sign coming first and counting
    as one of the four. *)
Definition format_04d (i : Z) : string :=
  let digits := str_of_N (Z.abs_N i) in
  if (i <? 0)%Z
  then "-" ++ zeros (3 - String.length digits) ++ digits
  else zeros (4 - String.length digits) ++ digits.

(** [range(a, b)] *)
Definition range (a b : Z) : list Z := seqZ a (b - a).
End Strings.

(** [for x in l: s = body(s, x)], stopping at the first exception. *)
Fixpoint for_each {A S : Type} (body : S -> A -> result S) (l : list A)
    (s : S) : result S :=
  match l with
  | [] => Ok s
  | a :: l' => s' ← body s a; for_each body l' s'
  end.

(** ** The reportlab canvas *)

(** The operations a caller issues on a [canvas.Canvas], from its creation
    [NewCanvas] on.  [DrawOn] is
    [Code128(text, barHeight, barWidth, humanReadable=False).drawOn(c, x, y)]. *)
Inductive op (T : Type) : Type :=
| NewCanvas (pagesize : T * T)
| DrawOn (text : string) (barHeight barWidth x y : T)
| SetFillColor (colour : string)
| SetFont (name : string) (size : Z)
| DrawString (x y : T) (text : string)
| ShowPage
| Save.
Arguments NewCanvas {T} pagesize.
Arguments DrawOn {T} text barHeight barWidth x y.
Arguments SetFillColor {T} colour.
Arguments SetFont {T} name size.
Arguments DrawString {T} x y text.
Arguments ShowPage {T}.
Arguments Save {T}.

Definition canvas (T : Type) : Type := list (op T).

(** What [draw_single_label] resolves for one label: the locals
    [bar_width], [bar_height], [internal_quiet], [x], [y], and the font,
    point and text of the caption. *)
Module Label.
Record t (T : Type) : Type := make {
  bar_width : T;
  bar_height : T;
  internal_quiet : T;
  x : T;
  y : T;
  font_name : string;
  font_size : Z;
  caption_x : T;
  caption_y : T;
  label_text : string
}.
Arguments make {T}.
Arguments bar_width {T} _.
Arguments bar_height {T} _.
Arguments internal_quiet {T} _.
Arguments x {T} _.
Arguments y {T} _.
Arguments font_name {T} _.
Arguments font_size {T} _.
Arguments caption_x {T} _.
Arguments caption_y {T} _.
Arguments label_text {T} _.
End Label.

(** ** app.py *)

Module App.

Local Open Scope string_scope.

Definition COLOURS : gmap string string :=
  list_to_map [
    ("AT0001", "Black");
    ("AT0002", "Blue");
    ("AT0003", "White");
    ("AT0004", "Pink")
  ].

(** Series allowed per SKU *)
Definition SERIES_BY_SKU : gmap string (list string) :=
  list_to_map [
    ("AT0003", chars "AEIMQUY");
    ("AT0002", chars "BFJNRVZ");
    ("AT0001", chars "CGKOSW");
    ("AT0004", chars "DHLPTX")
  ].

(** [d[key]] *)
Definition getitem {V : Type} (d : gmap string V) (key : string) : result V :=
  match d !! key with
  | Some v => Ok v
  | None => Raise (KeyError key)
  end.

(** Lines 108-121 of [validate_inputs]: the checks on the two numbers,
    reached with the normalised series. *)
Definition validate_numbers (series start_num end_num : string)
  : result (string * Z * Z) :=
  if negb (negb (String.eqb start_num "") && negb (String.eqb end_num "")) then
    Raise (ValueError "Please provide both Start and End numbers (0001–9999).")
  else if negb (len start_num =? 4)%Z || negb (len end_num =? 4)%Z
          || negb (isdigit start_num) || negb (isdigit end_num) then
    Raise (ValueError "Numbers must be 4 digits, e.g., 0001, 0075, 0315.")
  else
    let s := int start_num in
    let e := int end_num in
    if negb ((1 <=? s)%Z && (s <=? 9999)%Z && (1 <=? e)%Z && (e <=? 9999)%Z) then
      Raise (ValueError "Numbers must be between 0001 and 9999.")
    else if (e <? s)%Z then
      Raise (ValueError "End number must be greater than or equal to Start number.")
    else
      Ok (series, s, e).

Definition validate_inputs (color_code series start_num end_num : string)
  : result (string * Z * Z) :=
  if bool_decide (color_code ∉ dom COLOURS) then
    Raise (ValueError "Invalid colour code. Choose one of the listed AT000X values.")
  else
    let series := upper (strip series) in
    allowed_for_sku ← getitem SERIES_BY_SKU color_code;
    if bool_decide (series ∉ allowed_for_sku) then
      let allowed_str := join ", " allowed_for_sku in
      Raise (ValueError ("Invalid series for " ++ color_code
                         ++ ". Allowed: " ++ allowed_str))
    else
      validate_numbers series start_num end_num.

Section Layout.
Context {T : Type} `{Number T}.
Local Open Scope num_scope.

(** [Code128(text, barHeight, barWidth, humanReadable=False).width] *)
Variable code128_width : string -> T -> T -> T.
(** [c.stringWidth(text, fontName, fontSize)] *)
Variable stringWidth : string -> string -> Z -> T.

Definition MM_TO_PT : T := lit 72.0 / lit 25.4.
Definition PAGE_W : T := lit 70 * MM_TO_PT.
Definition PAGE_H : T := lit 30 * MM_TO_PT.

(** The locals of [draw_single_label] that do not depend on its
    arguments, each under its name. *)
Definition outer_margin_mm : T := lit 1.0.
Definition left_margin : T := outer_margin_mm * MM_TO_PT.
Definition right_margin : T := outer_margin_mm * MM_TO_PT.
Definition top_margin : T := lit 1.0 * MM_TO_PT.
Definition bottom_margin : T := lit 1.0 * MM_TO_PT.

Definition font_name : string := "Helvetica".
Definition font_size : Z := 8.
Definition gap_above_text : T := lit 0.8 * MM_TO_PT.
Definition text_band_h : T := lit (inject_Z font_size) + gap_above_text.

Definition usable_w : T := PAGE_W - left_margin - right_margin.
Definition usable_h : T := PAGE_H - top_margin - bottom_margin - text_band_h.

Definition X_MIN_MM : T := lit 0.30.
Definition X_MIN_PT : T := X_MIN_MM * MM_TO_PT.

Definition QUIET_X_MULT : T := lit 10.
Definition quiet_each_side : T :=
  py_max (QUIET_X_MULT * X_MIN_PT) (lit 2.0 * MM_TO_PT).

Definition BAR_HEIGHT_MM : T := lit 14.
Definition bar_height : T := py_min usable_h (BAR_HEIGHT_MM * MM_TO_PT).

(** Lines 64-75: the bar width and the quiet zone, as a function of the
    two locals they are computed from. *)
Definition width_at_xmin (module_count : T) : T :=
  module_count * X_MIN_PT + lit 2 * quiet_each_side.

Definition safety_quiet (usable_w : T) : T :=
  py_max (lit 0.1 * MM_TO_PT) (lit 0.05 * (usable_w / lit 2.0)).

Definition available_for_bars (usable_w : T) : T :=
  py_max (usable_w - lit 2 * safety_quiet usable_w) (lit 1).

Definition fit (usable_w module_count : T) : result (T * T) :=
  if width_at_xmin module_count <=? usable_w then
    Ok (X_MIN_PT, quiet_each_side)
  else
    bar_width ← py_div (available_for_bars usable_w) module_count;
    Ok (bar_width, safety_quiet usable_w).

Definition origin_y : T :=
  bottom_margin + text_band_h + (usable_h - bar_height) / lit 2.0.

Definition geometry (barcode_text color_name : string)
  : result (Label.t T) :=
  let module_count := code128_width barcode_text bar_height (lit 1.0) in
  '(bar_width, internal_quiet) ← fit usable_w module_count;
  let label_text := (barcode_text ++ " | " ++ color_name)%string in
  let text_w := stringWidth label_text font_name font_size in
  Ok (Label.make bar_width bar_height internal_quiet
        (left_margin + internal_quiet) origin_y font_name font_size
        ((PAGE_W - text_w) / lit 2.0) bottom_margin label_text).

Definition draw_single_label (c : canvas T)
    (barcode_text color_name : string) : result (canvas T) :=
  g ← geometry barcode_text color_name;
  Ok (c ++ [ DrawOn barcode_text (Label.bar_height g) (Label.bar_width g)
               (Label.x g) (Label.y g);
             SetFillColor "black";
             SetFont (Label.font_name g) (Label.font_size g);
             DrawString (Label.caption_x g) (Label.caption_y g)
               (Label.label_text g) ])%list.
End Layout.

(** What the [POST] branch of [index] answers. *)
Inductive response (T : Type) : Type :=
| Redirect (flashed : string)
| SendFile (pdf : canvas T) (download_name : string).
Arguments Redirect {T} flashed.
Arguments SendFile {T} pdf download_name.

Section Index.
Context {T : Type} `{Number T}.

Variable code128_width : string -> T -> T -> T.
Variable stringWidth : string -> string -> Z -> T.

(** The body of the loop of [index]: one label, then [c.showPage()]. *)
Definition page (color_code series color_name : string) (c : canvas T)
    (i : Z) : result (canvas T) :=
  let num_str := format_04d i in
  let barcode_value := color_code ++ "-" ++ series ++ num_str in
  c ← draw_single_label code128_width stringWidth c barcode_value color_name;
  Ok (c ++ [ShowPage])%list.

(** [index] on a [POST] request with the four form fields. *)
Definition index (form_color_code form_series form_start_num
    form_end_num : string) : result (response T) :=
  let color_code := strip form_color_code in
  let series := strip form_series in
  let start_num := strip form_start_num in
  let end_num := strip form_end_num in
  match validate_inputs color_code series start_num end_num with
  | Raise (ValueError e) => Ok (Redirect e)
  | Raise e => Raise e
  | Ok (series, start_i, end_i) =>
      color_name ← getitem COLOURS color_code;
      let c := [NewCanvas (PAGE_W, PAGE_H)] in
      c ← for_each (page color_code series color_name)
            (range start_i (end_i + 1)) c;
      let c := (c ++ [Save])%list in
      let filename :=
        "barcodes_" ++ color_code ++ "_" ++ series ++ format_04d start_i
        ++ "-" ++ series ++ format_04d end_i ++ ".pdf" in
      Ok (SendFile c filename)
  end.
End Index.

End App.

(** ** make_custom_barcodes.py *)

Module MakeCustomBarcodes.

Local Open Scope string_scope.

Section Layout.
Context {T : Type} `{Number T}.
Local Open Scope num_scope.

Variable code128_width : string -> T -> T -> T.
Variable stringWidth : string -> string -> Z -> T.

Definition MM_TO_PT : T := lit 72.0 / lit 25.4.
Definition PAGE_W : T := lit 70 * MM_TO_PT.
Definition PAGE_H : T := lit 30 * MM_TO_PT.

(** The body of [draw_single_label] up to the drawing, line by line. *)
Definition geometry (barcode_text color_name : string)
  : result (Label.t T) :=
  let outer_margin_mm := lit 1.0 in
  let left_margin := outer_margin_mm * MM_TO_PT in
  let right_margin := outer_margin_mm * MM_TO_PT in
  let top_margin := lit 1.0 * MM_TO_PT in
  let bottom_margin := lit 1.0 * MM_TO_PT in
  let font_name := "Helvetica" in
  let font_size := 8%Z in
  let gap_above_text := lit 0.8 * MM_TO_PT in
  let text_band_h := lit (inject_Z font_size) + gap_above_text in
  let usable_w := PAGE_W - left_margin - right_margin in
  let usable_h := PAGE_H - top_margin - bottom_margin - text_band_h in
  let X_MIN_MM := lit 0.30 in
  let X_MIN_PT := X_MIN_MM * MM_TO_PT in
  let QUIET_X_MULT := lit 10 in
  let quiet_each_side :=
    py_max (QUIET_X_MULT * X_MIN_PT) (lit 2.0 * MM_TO_PT) in
  let BAR_HEIGHT_MM := lit 14 in
  let bar_height := py_min usable_h (BAR_HEIGHT_MM * MM_TO_PT) in
  let module_count := code128_width barcode_text bar_height (lit 1.0) in
  let width_at_xmin := module_count * X_MIN_PT + lit 2 * quiet_each_side in
  '(bar_width, internal_quiet) ←
    (if width_at_xmin <=? usable_w then
       Ok (X_MIN_PT, quiet_each_side)
     else
       let safety_quiet :=
         py_max (lit 0.1 * MM_TO_PT) (lit 0.05 * (usable_w / lit 2.0)) in
       let available_for_bars :=
         py_max (usable_w - lit 2 * safety_quiet) (lit 1) in
       bar_width ← py_div available_for_bars module_count;
       Ok (bar_width, safety_quiet));
  let x := left_margin + internal_quiet in
  let y := bottom_margin + text_band_h + (usable_h - bar_height) / lit 2.0 in
  let label_text := (barcode_text ++ " | " ++ color_name)%string in
  let text_w := stringWidth label_text font_name font_size in
  Ok (Label.make bar_width bar_height internal_quiet x y font_name font_size
        ((PAGE_W - text_w) / lit 2.0) bottom_margin label_text).

Definition draw_single_label (c : canvas T)
    (barcode_text color_name : string) : result (canvas T) :=
  g ← geometry barcode_text color_name;
  Ok (c ++ [ DrawOn barcode_text (Label.bar_height g) (Label.bar_width g)
               (Label.x g) (Label.y g);
             SetFillColor "black";
             SetFont (Label.font_name g) (Label.font_size g);
             DrawString (Label.caption_x g) (Label.caption_y g)
               (Label.label_text g) ])%list.
End Layout.

Definition COLOURS : gmap string string := {[ "AT0004" := "Pink" ]}.
Definition COLOR_CODE : string := "AT0004".
(** [COLOURS[COLOR_CODE]], looked up when the module is loaded. *)
Definition COLOR_NAME : result string := App.getitem COLOURS COLOR_CODE.
Definition SERIES : string := "D".

Definition NUMBERS : list Z :=
  [310; 315; 311; 229; 309; 313; 162; 302; 183; 304; 308; 301; 196; 131;
   199; 303; 206; 192; 130; 173; 305; 227; 178; 198; 195; 215; 191; 200;
   184; 186; 174; 181; 146; 187; 189; 175; 185; 180; 197; 194]%Z.

Section Main.
Context {T : Type} `{Number T}.

Variable code128_width : string -> T -> T -> T.
Variable stringWidth : string -> string -> Z -> T.

(** The body of the loop of [main]: a number out of bounds is skipped, any
    other gets its label and [c.showPage()]. *)
Definition label (color_name : string) (c : canvas T) (n : Z)
  : result (canvas T) :=
  if negb ((1 <=? n)%Z && (n <=? 9999)%Z) then Ok c
  else
    let num_str := format_04d n in
    let barcode_value := COLOR_CODE ++ "-" ++ SERIES ++ num_str in
    c ← draw_single_label code128_width stringWidth c barcode_value color_name;
    Ok (c ++ [ShowPage])%list.

(** The loop of [main] over a list of numbers, on a fresh canvas, up to
    [c.save()]. *)
Definition document (numbers : list Z) : result (canvas T) :=
  color_name ← COLOR_NAME;
  let c := [NewCanvas (PAGE_W, PAGE_H)] in
  c ← for_each (label color_name) numbers c;
  Ok (c ++ [Save])%list.

(** [main()]: the file written, its content, and the line printed. *)
Definition main : result (string * canvas T * string) :=
  let filename := "barcodes_AT0004_D_list.pdf" in
  c ← document NUMBERS;
  Ok (filename, c, "✔ PDF written: " ++ filename).
End Main.

End MakeCustomBarcodes.

(** ** What a document shows *)

(** The barcode texts drawn on a canvas, in drawing order. *)
Fixpoint barcode_texts {T : Type} (c : canvas T) : list string :=
  match c with
  | DrawOn text _ _ _ _ :: c' => text :: barcode_texts c'
  | _ :: c' => barcode_texts c'
  | [] => []
  end.

(** The number of pages ended by [showPage]. *)
Fixpoint pages {T : Type} (c : canvas T) : nat :=
  match c with
  | ShowPage :: c' => S (pages c')
  | _ :: c' => pages c'
  | [] => O
  end.

(** The captions written on a canvas, in drawing order. *)
Fixpoint caption_texts {T : Type} (c : canvas T) : list string :=
  match c with
  | DrawString _ _ text :: c' => text :: caption_texts c'
  | _ :: c' => caption_texts c'
  | [] => []
  end.

(** ** Serial numbers *)

(** The value of a digit character. *)
Definition digit_value (c : ascii) : Z := Z.of_N (ord c) - 48.

(** What [{i:04d}] prints for [i] has four characters, all digits, and
    reads back as [i]. *)
Definition four_digits_of (i : Z) : bool :=
  (String.length (format_04d i) =? 4)%nat && isdigit (format_04d i)
  && (int (format_04d i) =? i)%Z.

(** ** The two arithmetics *)

(** The arithmetics the layout is read in: [exact] rationals, and the
    [binary64] floats the Python program runs on. *)
Inductive arithmetic : Type := exact | binary64.

Definition num (a : arithmetic) : Type :=
  match a with
  | exact => Q
  | binary64 => float
  end.

#[global] Instance num_Number (a : arithmetic) : Number (num a) :=
  match a with
  | exact => Q_Number
  | binary64 => float_Number
  end.

(** ** Auxiliary notions of the further properties *)

(** A string that does not start with a space. *)
Definition no_leading_space (s : string) : Prop :=
  match s with
  | String c _ => isspace c = false
  | EmptyString => True
  end.

(** The operations of one page: the bars, the caption, [showPage]. *)
Definition page_ops {T : Type} (text : string) (g : Label.t T) : canvas T :=
  [ DrawOn text (Label.bar_height g) (Label.bar_width g) (Label.x g)
      (Label.y g);
    SetFillColor "black";
    SetFont (Label.font_name g) (Label.font_size g);
    DrawString (Label.caption_x g) (Label.caption_y g) (Label.label_text g);
    ShowPage ].

(** A number of the list is printed when it is between 1 and 9999. *)
Definition in_bounds (n : Z) : bool := (1 <=? n)%Z && (n <=? 9999)%Z.

(** * Properties *)

(** ** Exact arithmetic *)

Section ExactFacts.
Local Open Scope Q_scope.

Lemma nle_Q (a b : Q) : nle a b = true <-> a <= b.
Proof. apply Qle_bool_iff. Qed.

Lemma nle_Q_false (a b : Q) : nle a b = false <-> b < a.
Proof.
  cbn. rewrite <- not_true_iff_false, Qle_bool_iff. split.
  - apply Qnot_le_lt.
  - apply Qlt_not_le.
Qed.

Lemma nlt_Q (a b : Q) : nlt a b = true <-> a < b.
Proof.
  cbn. rewrite negb_true_iff. apply nle_Q_false.
Qed.

Lemma nlt_Q_false (a b : Q) : nlt a b = false <-> b <= a.
Proof.
  cbn. rewrite negb_false_iff. apply Qle_bool_iff.
Qed.

Lemma nzero_Q (a : Q) : nzero a = true <-> a == 0.
Proof. apply Qeq_bool_iff. Qed.

(** Python's [max] and [min] are the maximum and the minimum. *)
Lemma py_max_Q (a b : Q) : py_max a b == Qmax a b.
Proof.
  unfold py_max. destruct (nlt a b) eqn:E.
  - apply nlt_Q in E. symmetry. apply Q.max_r. lra.
  - apply nlt_Q_false in E. symmetry. apply Q.max_l. exact E.
Qed.

Lemma py_min_Q (a b : Q) : py_min a b == Qmin a b.
Proof.
  unfold py_min. destruct (nlt b a) eqn:E.
  - apply nlt_Q in E. symmetry. apply Q.min_r. lra.
  - apply nlt_Q_false in E. symmetry. apply Q.min_l. exact E.
Qed.

Lemma Qdiv_lt_iff (a m x : Q) : 0 < m -> (a / m < x <-> a < m * x).
Proof.
  intros Hm. split; intros Hlt.
  - rewrite <- (Qmult_div_r a m) by lra.
    apply Qmult_lt_l; assumption.
  - apply Qlt_shift_div_r; [assumption|]. lra.
Qed.

Lemma Qdiv_pos (a m : Q) : 0 < a -> 0 < m -> 0 < a / m.
Proof.
  intros Ha Hm. apply Qlt_shift_div_l; [assumption|]. lra.
Qed.

End ExactFacts.

(** ** Binary64 *)

(** A float that compares equal to zero is one of the two zeros. *)
Lemma float_zero_cases (m : float) :
  PrimFloat.eqb m PrimFloat.zero = true ->
  m = PrimFloat.zero \/ m = PrimFloat.neg_zero.
Proof.
  intros Heq. rewrite FloatAxioms.eqb_spec in Heq.
  rewrite <- (FloatAxioms.SF2Prim_Prim2SF m).
  destruct (FloatOps.Prim2SF m) as [[|]|[|]| |[|] mm e];
    vm_compute in Heq; try discriminate Heq.
  - right. reflexivity.
  - left. reflexivity.
Qed.

(** The decimal literals of the program, as binary64 floats. *)
Lemma float_literals :
  lit 25.4 = 0x1.9666666666666p+4%float
  /\ lit 0.30 = 0x1.3333333333333p-2%float
  /\ lit 0.8 = 0x1.999999999999ap-1%float
  /\ lit 0.1 = 0x1.999999999999ap-4%float
  /\ lit 0.05 = 0x1.999999999999ap-5%float
  /\ lit 72.0 = 72%float /\ lit 2.0 = 2%float /\ lit 1.0 = 1%float.
Proof.
  repeat split; vm_compute; reflexivity.
Qed.

(** ** The two branches of the sizing rule *)

Section Branches.
Context {T : Type} `{Number T}.

Lemma fit_fits (usable_w module_count : T) :
  nle (App.width_at_xmin module_count) usable_w = true ->
  App.fit usable_w module_count = Ok (App.X_MIN_PT, App.quiet_each_side).
Proof.
  intros Hfit. unfold App.fit. rewrite Hfit. reflexivity.
Qed.

Lemma fit_overflow (usable_w module_count : T) :
  nle (App.width_at_xmin module_count) usable_w = false ->
  nzero module_count = false ->
  App.fit usable_w module_count
  = Ok (ndiv (App.available_for_bars usable_w) module_count,
        App.safety_quiet usable_w).
Proof.
  intros Hover Hnz. unfold App.fit, py_div. rewrite Hover, Hnz. reflexivity.
Qed.

Lemma fit_zero_division (usable_w module_count : T) :
  nle (App.width_at_xmin module_count) usable_w = false ->
  nzero module_count = true ->
  App.fit usable_w module_count = Raise ZeroDivisionError.
Proof.
  intros Hover Hz. unfold App.fit, py_div. rewrite Hover, Hz. reflexivity.
Qed.

(** [geometry] is [fit] at the label's usable width, with the constant
    height, origin and caption around it. *)
Lemma geometry_of_fit cw sw (text color : string) (bw iq : T) :
  App.fit App.usable_w (cw text App.bar_height (lit 1.0)) = Ok (bw, iq) ->
  App.geometry cw sw text color
  = Ok (Label.make bw App.bar_height iq (nadd App.left_margin iq) App.origin_y
          App.font_name App.font_size
          (ndiv (nsub App.PAGE_W
                   (sw (text ++ " | " ++ color)%string App.font_name
                      App.font_size))
                (lit 2.0))
          App.bottom_margin (text ++ " | " ++ color)%string).
Proof.
  intros Hfit. unfold App.geometry. rewrite Hfit. reflexivity.
Qed.

Lemma geometry_inv cw sw (text color : string) (g : Label.t T) :
  App.geometry cw sw text color = Ok g ->
  App.fit App.usable_w (cw text App.bar_height (lit 1.0))
  = Ok (Label.bar_width g, Label.internal_quiet g)
  /\ Label.bar_height g = App.bar_height
  /\ Label.x g = nadd App.left_margin (Label.internal_quiet g)
  /\ Label.y g = App.origin_y
  /\ Label.caption_y g = App.bottom_margin
  /\ Label.label_text g = (text ++ " | " ++ color)%string.
Proof.
  unfold App.geometry.
  destruct (App.fit _ _) as [[bw iq]|e]; cbn; [|discriminate].
  intros [= <-]. cbn. repeat split; reflexivity.
Qed.

End Branches.

(** ** The layout in exact arithmetic *)

(** Replace a closed rational expression of the layout by its value. *)
Ltac exact_value c :=
  let v := eval vm_compute in c in change c with v in *.

Ltac exact_layout :=
  unfold App.width_at_xmin, App.safety_quiet, App.available_for_bars in *;
  cbn [nadd nsub nmul ndiv nle nlt nzero lit Q_Number] in *;
  exact_value (App.usable_w (T:=Q));
  exact_value (App.X_MIN_PT (T:=Q));
  exact_value (App.quiet_each_side (T:=Q));
  exact_value (App.MM_TO_PT (T:=Q)).

Section ExactLayout.
Local Open Scope Q_scope.

(** In millimetres: the width at the minimum module exceeds the usable
    68 mm when the module count exceeds (68 - 2 * 3) / 0.30. *)
Lemma overflow_iff (m : Q) :
  App.usable_w < App.width_at_xmin m <-> 620 # 3 < m.
Proof.
  exact_layout. split; intros; lra.
Qed.

Lemma overflow_positive (m : Q) :
  App.usable_w < App.width_at_xmin m -> 0 < m.
Proof.
  rewrite overflow_iff. lra.
Qed.

Lemma safety_quiet_usable_w :
  App.safety_quiet (T:=Q) App.usable_w
  == Qmax (0.1 * App.MM_TO_PT) (0.05 * (App.usable_w / 2)).
Proof.
  unfold App.safety_quiet. rewrite py_max_Q. reflexivity.
Qed.

(** On the label of the program the clamp of [available_for_bars] is
    inactive: 68 mm less two safety zones of 1.7 mm is far above one point. *)
Lemma available_for_bars_usable_w :
  App.available_for_bars (T:=Q) App.usable_w
  == App.usable_w - 2 * App.safety_quiet App.usable_w.
Proof. vm_compute. reflexivity. Qed.

(** In millimetres: the scaled bar is thinner than 0.30 mm when the module
    count exceeds (68 - 2 * 1.7) / 0.30. *)
Lemma overflow_bar_width_threshold (m : Q) :
  App.usable_w - 2 * App.safety_quiet App.usable_w < m * App.X_MIN_PT
  <-> 646 # 3 < m.
Proof.
  exact_value (App.safety_quiet (T:=Q) App.usable_w).
  exact_layout. split; intros; lra.
Qed.

End ExactLayout.

(** ** No division by zero on the label of the program *)

(** A module count of zero is in the fits case, in both arithmetics, so the
    division of the overflow case never sees it. *)
Lemma zero_fits (a : arithmetic) (m : num a) :
  nzero m = true -> nle (App.width_at_xmin m) App.usable_w = true.
Proof.
  destruct a; cbn [num num_Number] in *; intros Hz.
  - apply nzero_Q in Hz. apply nle_Q. exact_layout. lra.
  - destruct (float_zero_cases m Hz) as [-> | ->]; vm_compute; reflexivity.
Qed.

Lemma fit_total (a : arithmetic) (m : num a) :
  exists bw iq, App.fit App.usable_w m = Ok (bw, iq).
Proof.
  destruct (nle (App.width_at_xmin m) App.usable_w) eqn:Hle.
  - do 2 eexists. apply fit_fits. exact Hle.
  - do 2 eexists. apply fit_overflow; [exact Hle|].
    destruct (nzero m) eqn:Hz; [|reflexivity].
    apply zero_fits in Hz. congruence.
Qed.

Lemma geometry_total (a : arithmetic) cw sw (text color : string) :
  exists g : Label.t (num a), App.geometry cw sw text color = Ok g.
Proof.
  destruct (fit_total a (cw text App.bar_height (lit 1.0))) as (bw & iq & Hfit).
  eexists. apply geometry_of_fit. exact Hfit.
Qed.

(** ** The sizing rule *)

Section SizingRule.
Local Open Scope Q_scope.

(** C2.  Fits case, in any arithmetic: when the module count of the text
    satisfies [module_count * X_MIN_PT + 2 * max(10 * X_MIN_PT, 2 mm) <=
    usable_w], the label is laid out with the bar width 0.30 mm exactly and
    with the full quiet zone [max(10 * 0.30 mm, 2 mm)] on each side. *)
Theorem fits_case_minimum_module {T : Type} `{Number T}
    (cw : string -> T -> T -> T) (sw : string -> string -> Z -> T)
    (text color : string) :
  nle (nadd (nmul (cw text App.bar_height (lit 1.0)) App.X_MIN_PT)
         (nmul (lit 2)
            (py_max (nmul (lit 10) App.X_MIN_PT)
               (nmul (lit 2.0) App.MM_TO_PT))))
      App.usable_w = true ->
  exists g : Label.t T,
    App.geometry cw sw text color = Ok g
    /\ Label.bar_width g = nmul (lit 0.30) App.MM_TO_PT
    /\ Label.internal_quiet g
       = py_max (nmul (lit 10) (nmul (lit 0.30) App.MM_TO_PT))
           (nmul (lit 2.0) App.MM_TO_PT)
    /\ Label.x g = nadd App.left_margin (Label.internal_quiet g).
Proof.
  intros Hfit. eexists. split.
  - apply geometry_of_fit. apply fit_fits. exact Hfit.
  - repeat split; reflexivity.
Qed.

(** The fits case on binary64 floats, for a text of 100 modules. *)
Lemma fits_case_minimum_module_witness :
  nle (App.width_at_xmin 100%float) App.usable_w = true
  /\ exists g : Label.t float,
       App.geometry (fun _ _ _ => 100%float) (fun _ _ _ => 60%float)
         "AT0001-C0001" "Black" = Ok g
       /\ Label.bar_width g = nmul (lit 0.30) App.MM_TO_PT.
Proof.
  assert (Hfit : nle (App.width_at_xmin 100%float) App.usable_w = true)
    by (vm_compute; reflexivity).
  split; [exact Hfit|].
  destruct (fits_case_minimum_module (fun _ _ _ => 100%float)
              (fun _ _ _ => 60%float) "AT0001-C0001" "Black" Hfit)
    as (g & Hg & Hbw & _).
  exists g. split; [exact Hg | exact Hbw].
Defined.

(** C1, as the program has it.  Overflow case, in exact arithmetic: when the
    width at the minimum module exceeds the usable width, the quiet zone is
    the safety zone [max(0.1 mm, 5% of half the usable width)], the bar
    width is [(usable_w - 2 * safety) / module_count], and the bars with
    the two safety zones fill the usable width exactly.  The bar is thinner
    than the minimum module 0.30 mm exactly when [module_count * 0.30 mm]
    exceeds the width left for the bars, that is for more than 646/3
    modules; the overflow case starts at 620/3 modules already. *)
Theorem overflow_fills_usable_width
    (cw : string -> Q -> Q -> Q) (sw : string -> string -> Z -> Q)
    (text color : string) :
  App.usable_w < App.width_at_xmin (cw text App.bar_height (lit 1.0)) ->
  exists g : Label.t Q,
    App.geometry cw sw text color = Ok g
    /\ Label.internal_quiet g
       == Qmax (0.1 * App.MM_TO_PT) (0.05 * (App.usable_w / 2))
    /\ Label.bar_width g
       == (App.usable_w - 2 * Label.internal_quiet g)
          / cw text App.bar_height (lit 1.0)
    /\ cw text App.bar_height (lit 1.0) * Label.bar_width g
       + 2 * Label.internal_quiet g == App.usable_w
    /\ (Label.bar_width g < App.X_MIN_PT
        <-> App.usable_w - 2 * Label.internal_quiet g
            < cw text App.bar_height (lit 1.0) * App.X_MIN_PT)
    /\ (Label.bar_width g < App.X_MIN_PT
        <-> 646 # 3 < cw text App.bar_height (lit 1.0)).
Proof.
  set (m := cw text App.bar_height (lit 1.0)). intros Hover.
  pose proof (overflow_positive m Hover) as Hpos.
  assert (Hnz : ~ m == 0) by lra.
  eexists. split.
  { apply geometry_of_fit. apply fit_overflow.
    - apply nle_Q_false. exact Hover.
    - apply not_true_iff_false. rewrite nzero_Q. exact Hnz. }
  cbn [Label.internal_quiet Label.bar_width ndiv Q_Number].
  fold m. rewrite available_for_bars_usable_w.
  split; [apply safety_quiet_usable_w|].
  split; [reflexivity|].
  split; [rewrite Qmult_div_r by exact Hnz; ring|].
  split.
  - apply Qdiv_lt_iff. exact Hpos.
  - rewrite <- overflow_bar_width_threshold. apply Qdiv_lt_iff. exact Hpos.
Qed.

(** The overflow case for a text of 300 modules. *)
Lemma overflow_fills_usable_width_witness :
  App.usable_w < App.width_at_xmin (T:=Q) 300
  /\ exists g : Label.t Q,
       App.geometry (fun _ _ _ => 300) (fun _ _ _ => 60)
         "AT0001-C0001-AT0001-C0001-AT0001-C0001" "Black" = Ok g
       /\ 300 * Label.bar_width g + 2 * Label.internal_quiet g
          == App.usable_w
       /\ Label.bar_width g < App.X_MIN_PT.
Proof.
  assert (Hover : App.usable_w < App.width_at_xmin (T:=Q) 300)
    by (vm_compute; reflexivity).
  split; [exact Hover|].
  destruct (overflow_fills_usable_width (fun _ _ _ => 300) (fun _ _ _ => 60)
              "AT0001-C0001-AT0001-C0001-AT0001-C0001" "Black" Hover)
    as (g & Hg & _ & _ & Hfill & _ & Hthin).
  exists g. split; [exact Hg|]. split; [exact Hfill|].
  apply Hthin. vm_compute. reflexivity.
Defined.

(** C1, as stated, fails: a text of 210 modules is in the overflow case
    (210 * 0.30 mm + 2 * 3 mm = 69 mm exceeds the usable 68 mm), and its
    bars are scaled to 64.6 mm / 210, which is wider than 0.30 mm.  In exact
    arithmetic, and on the binary64 floats of the program. *)
Lemma overflow_bar_width_above_minimum :
  (App.usable_w < App.width_at_xmin (T:=Q) 210
   /\ exists g : Label.t Q,
        App.geometry (fun _ _ _ => 210) (fun _ _ _ => 60)
          "AT0001-C0001-AT0001" "Black" = Ok g
        /\ App.X_MIN_PT < Label.bar_width g)
  /\ (nle (App.width_at_xmin 210%float) App.usable_w = false
      /\ exists g : Label.t float,
           App.geometry (fun _ _ _ => 210%float) (fun _ _ _ => 60%float)
             "AT0001-C0001-AT0001" "Black" = Ok g
           /\ nlt App.X_MIN_PT (Label.bar_width g) = true).
Proof.
  split; (split; [vm_compute; reflexivity|]);
    eexists; (split; [vm_compute; reflexivity|]); vm_compute; reflexivity.
Qed.

(** On binary64 floats the bars and the safety zones fill the usable width
    up to rounding: at 400 modules the sum is the usable width, at 300
    modules it is the next float above it. *)
Lemma overflow_fill_binary64 :
  (exists bw iq : float,
     App.fit App.usable_w 400%float = Ok (bw, iq)
     /\ nlt bw App.X_MIN_PT = true
     /\ nadd (nmul 400%float bw) (nmul 2%float iq) = App.usable_w)
  /\ (exists bw iq : float,
        App.fit App.usable_w 300%float = Ok (bw, iq)
        /\ nlt bw App.X_MIN_PT = true
        /\ nsub (nadd (nmul 300%float bw) (nmul 2%float iq)) App.usable_w
           = 0x1p-45%float).
Proof.
  split; do 2 eexists; (split; [vm_compute; reflexivity|]);
    split; vm_compute; reflexivity.
Qed.

End SizingRule.

Section Clamp.
Local Open Scope Q_scope.

Lemma available_for_bars_Q (uw : Q) :
  App.available_for_bars uw == Qmax (uw - 2 * App.safety_quiet uw) 1.
Proof.
  unfold App.available_for_bars. rewrite py_max_Q. reflexivity.
Qed.

(** C9.  Overflow case, in exact arithmetic and for any usable width: the
    width divided by the module count is [max(usable_w - 2 * safety, 1)],
    at least one point, so for a positive module count the bar width is
    strictly positive, also when [usable_w - 2 * safety] is zero or
    negative.  The bars and the two safety zones add up to the usable width
    only when the clamp is inactive, that is when [usable_w - 2 * safety]
    is one point or more. *)
Theorem overflow_bar_width_positive (uw m : Q) :
  0 < m ->
  uw < App.width_at_xmin m ->
  exists bw : Q,
    App.fit uw m = Ok (bw, App.safety_quiet uw)
    /\ bw == Qmax (uw - 2 * App.safety_quiet uw) 1 / m
    /\ 0 < bw
    /\ (m * bw + 2 * App.safety_quiet uw == uw
        <-> 1 <= uw - 2 * App.safety_quiet uw).
Proof.
  intros Hpos Hover.
  assert (Hnz : ~ m == 0) by lra.
  eexists. split.
  { apply fit_overflow.
    - apply nle_Q_false. exact Hover.
    - apply not_true_iff_false. rewrite nzero_Q. exact Hnz. }
  cbn [ndiv Q_Number]. rewrite available_for_bars_Q.
  set (a := uw - 2 * App.safety_quiet uw).
  pose proof (Q.le_max_r a 1) as Hone.
  split; [reflexivity|]. split.
  - apply Qdiv_pos; lra.
  - rewrite Qmult_div_r by exact Hnz. split; intros Heq.
    + destruct (Qlt_le_dec a 1) as [Hlt|Hle]; [|exact Hle].
      rewrite (Q.max_r a 1) in Heq by lra. subst a. lra.
    + rewrite (Q.max_l a 1) by exact Heq. subst a. ring.
Qed.

(** A strip half a point wide and a text of 10 modules: [usable_w - 2 *
    safety] is negative, the bars are 1/10 point wide, and the bars with
    the safety zones are wider than the strip. *)
Lemma overflow_bar_width_positive_witness :
  (0 < 10 /\ (1 # 2) < App.width_at_xmin (T:=Q) 10)
  /\ (1 # 2) - 2 * App.safety_quiet (T:=Q) (1 # 2) <= 0
  /\ exists bw : Q,
       App.fit (1 # 2) 10 = Ok (bw, App.safety_quiet (1 # 2))
       /\ 0 < bw
       /\ ~ 10 * bw + 2 * App.safety_quiet (1 # 2) == 1 # 2.
Proof.
  assert (Hpos : 0 < 10) by reflexivity.
  assert (Hover : (1 # 2) < App.width_at_xmin (T:=Q) 10)
    by (vm_compute; reflexivity).
  split; [split; [exact Hpos | exact Hover]|].
  split; [vm_compute; discriminate|].
  destruct (overflow_bar_width_positive (1 # 2) 10 Hpos Hover)
    as (bw & Hfit & _ & Hbw & Hfill).
  exists bw. split; [exact Hfit|]. split; [exact Hbw|].
  intros Heq. apply Hfill in Heq. vm_compute in Heq. apply Heq. reflexivity.
Defined.

(** The same strip on binary64 floats. *)
Lemma overflow_clamp_binary64 :
  App.fit 0.5%float 10%float
  = Ok (PrimFloat.div 1 10, App.safety_quiet 0.5%float)
  /\ nle (nsub 0.5%float (nmul 2%float (App.safety_quiet 0.5%float)))
       0%float = true
  /\ nlt 0%float (PrimFloat.div 1 10) = true.
Proof.
  repeat split; vm_compute; reflexivity.
Qed.

End Clamp.

(** ** Vertical placement and the fixed constants *)

(** C3.  In both arithmetics and for every text: the label is laid out,
    its vertical origin is [bottom_margin + text_band_h + (usable_h -
    bar_height) / 2] with [bar_height = min(usable_h, 14 mm)], and the
    bars lie between the top of the caption band and the top margin. *)
Theorem barcode_between_caption_and_top_margin (a : arithmetic)
    (cw : string -> num a -> num a -> num a)
    (sw : string -> string -> Z -> num a) (text color : string) :
  exists g : Label.t (num a),
    App.geometry cw sw text color = Ok g
    /\ Label.y g
       = nadd (nadd App.bottom_margin App.text_band_h)
           (ndiv (nsub App.usable_h (Label.bar_height g)) (lit 2.0))
    /\ Label.bar_height g
       = py_min App.usable_h (nmul (lit 14) App.MM_TO_PT)
    /\ nle (nadd App.bottom_margin App.text_band_h) (Label.y g) = true
    /\ nle (nadd (Label.y g) (Label.bar_height g))
         (nsub App.PAGE_H App.top_margin) = true.
Proof.
  destruct (geometry_total a cw sw text color) as [g Hg].
  exists g. split; [exact Hg|].
  apply geometry_inv in Hg as (_ & -> & _ & -> & _).
  destruct a; repeat split; vm_compute; reflexivity.
Qed.

(** In exact arithmetic the space left above the bars is the space left
    below them: origin, bar height and that space add up to the top margin. *)
Lemma vertical_centering_exact :
  (App.origin_y + App.bar_height + (App.usable_h - App.bar_height) / 2
   == App.bottom_margin + App.text_band_h + App.usable_h)%Q
  /\ (App.bottom_margin + App.text_band_h + App.usable_h
      == App.PAGE_H - App.top_margin)%Q.
Proof.
  split; vm_compute; reflexivity.
Qed.

(** C8.  In both arithmetics: the quiet zone per side is
    [max(10 * 0.30 mm, 2 mm)], an upper bound of both; the bar height is
    [min(usable_h, 14 mm)], a lower bound of both; so the bars of every
    label are at most as high as the usable height. *)
Theorem quiet_zone_and_bar_height (a : arithmetic) :
  App.quiet_each_side (T:=num a)
  = py_max (nmul (lit 10) (nmul (lit 0.30) App.MM_TO_PT))
      (nmul (lit 2.0) App.MM_TO_PT)
  /\ nle (nmul (lit 10) (nmul (lit 0.30) App.MM_TO_PT))
       (App.quiet_each_side (T:=num a)) = true
  /\ nle (nmul (lit 2.0) App.MM_TO_PT) (App.quiet_each_side (T:=num a)) = true
  /\ App.bar_height (T:=num a)
     = py_min App.usable_h (nmul (lit 14) App.MM_TO_PT)
  /\ nle (App.bar_height (T:=num a)) (nmul (lit 14) App.MM_TO_PT) = true
  /\ nle (App.bar_height (T:=num a)) App.usable_h = true
  /\ forall (cw : string -> num a -> num a -> num a)
       (sw : string -> string -> Z -> num a) (text color : string),
       exists g : Label.t (num a),
         App.geometry cw sw text color = Ok g
         /\ Label.bar_height g = App.bar_height
         /\ nle (Label.bar_height g) App.usable_h = true.
Proof.
  split; [reflexivity|].
  split; [destruct a; vm_compute; reflexivity|].
  split; [destruct a; vm_compute; reflexivity|].
  split; [reflexivity|].
  split; [destruct a; vm_compute; reflexivity|].
  split; [destruct a; vm_compute; reflexivity|].
  intros cw sw text color.
  destruct (geometry_total a cw sw text color) as [g Hg].
  exists g. split; [exact Hg|].
  apply geometry_inv in Hg as (_ & -> & _).
  split; [reflexivity|]. destruct a; vm_compute; reflexivity.
Qed.

(** In exact arithmetic Python's [max] and [min] are the rational ones:
    the quiet zone is 3 mm and the bar height 14 mm. *)
Lemma quiet_zone_and_bar_height_exact :
  (App.quiet_each_side == Qmax (10 * App.X_MIN_PT) (2 * App.MM_TO_PT))%Q
  /\ (App.quiet_each_side == 3 * App.MM_TO_PT)%Q
  /\ (App.bar_height == Qmin App.usable_h (14 * App.MM_TO_PT))%Q
  /\ (App.bar_height == 14 * App.MM_TO_PT)%Q.
Proof.
  repeat split; vm_compute; reflexivity.
Qed.

(** ** The two layout routines *)

(** C7.  In any arithmetic, with the same encoder and the same canvas, the
    layout routine of [make_custom_barcodes.py], embedded line by line,
    resolves for every text and colour name the geometry that the routine
    of [app.py] resolves (bar width, bar height, quiet zone, origin, and
    the font, point and text of the caption), with the same outcome when
    the division fails, and issues the same operations on the canvas. *)
Theorem layout_routines_agree {T : Type} `{Number T}
    (cw : string -> T -> T -> T) (sw : string -> string -> Z -> T)
    (c : canvas T) (text color : string) :
  MakeCustomBarcodes.geometry cw sw text color
  = App.geometry cw sw text color
  /\ MakeCustomBarcodes.draw_single_label cw sw c text color
     = App.draw_single_label cw sw c text color.
Proof.
  split; reflexivity.
Qed.

(** ** Validation *)

Section Validation.
Local Open Scope string_scope.

Lemma colours_dom :
  dom App.COLOURS = ({[ "AT0001"; "AT0002"; "AT0003"; "AT0004" ]} : gset string).
Proof.
  unfold App.COLOURS. cbn [list_to_map foldr fst snd uncurry].
  rewrite !dom_insert_L, dom_empty_L, (right_id_L ∅ (∪)). reflexivity.
Qed.

Lemma colours_cases (color_code : string) :
  color_code ∈ dom App.COLOURS ->
  color_code = "AT0001" \/ color_code = "AT0002"
  \/ color_code = "AT0003" \/ color_code = "AT0004".
Proof.
  rewrite colours_dom, !elem_of_union, !elem_of_singleton. tauto.
Qed.

Lemma series_dom : dom App.COLOURS ⊆ dom App.SERIES_BY_SKU.
Proof.
  apply (bool_decide_unpack _). vm_compute. reflexivity.
Qed.

Lemma getitem_series (color_code : string) :
  color_code ∈ dom App.COLOURS ->
  exists allowed, App.SERIES_BY_SKU !! color_code = Some allowed.
Proof.
  intros Hin. apply series_dom in Hin. apply elem_of_dom in Hin as [l Hl]. eauto.
Qed.

Lemma validate_unknown_colour (color_code series start_num end_num : string) :
  color_code ∉ dom App.COLOURS ->
  App.validate_inputs color_code series start_num end_num
  = Raise (ValueError
             "Invalid colour code. Choose one of the listed AT000X values.").
Proof.
  intros Hnot. unfold App.validate_inputs.
  rewrite bool_decide_eq_true_2 by exact Hnot. reflexivity.
Qed.

Lemma validate_known_colour (color_code series start_num end_num : string)
    (allowed : list string) :
  color_code ∈ dom App.COLOURS ->
  App.SERIES_BY_SKU !! color_code = Some allowed ->
  App.validate_inputs color_code series start_num end_num
  = if bool_decide (upper (strip series) ∉ allowed) then
      Raise (ValueError ("Invalid series for " ++ color_code
                         ++ ". Allowed: " ++ join ", " allowed))
    else App.validate_numbers (upper (strip series)) start_num end_num.
Proof.
  intros Hin Hallowed. unfold App.validate_inputs, App.getitem.
  rewrite bool_decide_eq_false_2 by (intros Hnot; exact (Hnot Hin)).
  rewrite Hallowed. reflexivity.
Qed.

Lemma validate_numbers_no_key_error (series start_num end_num key : string) :
  App.validate_numbers series start_num end_num <> Raise (KeyError key).
Proof.
  unfold App.validate_numbers.
  repeat match goal with
         | |- context [if ?b then _ else _] => destruct b
         end; discriminate.
Qed.

(** C10.  Every key of [COLOURS] is a key of [SERIES_BY_SKU]: for a known
    colour code the lookup [SERIES_BY_SKU[color_code]] succeeds, and
    [validate_inputs] never raises a [KeyError]. *)
Theorem series_lookup_never_fails :
  dom App.COLOURS ⊆ dom App.SERIES_BY_SKU
  /\ (forall color_code : string,
        color_code ∈ dom App.COLOURS ->
        exists allowed, App.getitem App.SERIES_BY_SKU color_code = Ok allowed)
  /\ (forall color_code series start_num end_num key : string,
        App.validate_inputs color_code series start_num end_num
        <> Raise (KeyError key)).
Proof.
  split; [exact series_dom|]. split.
  - intros color_code Hin. destruct (getitem_series _ Hin) as [allowed Hl].
    exists allowed. unfold App.getitem. rewrite Hl. reflexivity.
  - intros color_code series start_num end_num key.
    destruct (decide (color_code ∈ dom App.COLOURS)) as [Hin|Hnot].
    + destruct (getitem_series _ Hin) as [allowed Hl].
      rewrite (validate_known_colour _ _ _ _ _ Hin Hl).
      case_bool_decide; [discriminate|].
      apply validate_numbers_no_key_error.
    + rewrite validate_unknown_colour by exact Hnot. discriminate.
Qed.

(** C5.  [validate_inputs] checks the colour first and the series second.
    A colour code that is no key of [COLOURS] fails with the invalid-colour
    message, whatever the series.  For a known colour code, with the list
    [allowed] of its series: when the stripped, upper-cased series is in
    [allowed] the checks go on to the numbers with that series; otherwise
    validation fails with the message that lists [allowed], joined by
    commas.  The four messages are spelled out. *)
Theorem validate_colour_then_series
    (color_code series start_num end_num : string) :
  (color_code ∉ dom App.COLOURS ->
   App.validate_inputs color_code series start_num end_num
   = Raise (ValueError
              "Invalid colour code. Choose one of the listed AT000X values."))
  /\ (color_code ∈ dom App.COLOURS ->
      exists allowed : list string,
        App.SERIES_BY_SKU !! color_code = Some allowed
        /\ (upper (strip series) ∈ allowed ->
            App.validate_inputs color_code series start_num end_num
            = App.validate_numbers (upper (strip series)) start_num end_num)
        /\ (upper (strip series) ∉ allowed ->
            App.validate_inputs color_code series start_num end_num
            = Raise (ValueError ("Invalid series for " ++ color_code
                                 ++ ". Allowed: " ++ join ", " allowed))))
  /\ map (fun k => (k, join ", " <$> App.SERIES_BY_SKU !! k))
       ["AT0001"; "AT0002"; "AT0003"; "AT0004"]
     = [("AT0001", Some "C, G, K, O, S, W");
        ("AT0002", Some "B, F, J, N, R, V, Z");
        ("AT0003", Some "A, E, I, M, Q, U, Y");
        ("AT0004", Some "D, H, L, P, T, X")].
Proof.
  split; [apply validate_unknown_colour|].
  split; [|vm_compute; reflexivity].
  intros Hin. destruct (getitem_series _ Hin) as [allowed Hl].
  exists allowed. split; [exact Hl|].
  rewrite (validate_known_colour _ _ _ _ _ Hin Hl).
  split; intros Hser.
  - rewrite bool_decide_eq_false_2 by (intros Hnot; exact (Hnot Hser)).
    reflexivity.
  - rewrite bool_decide_eq_true_2 by exact Hser. reflexivity.
Qed.

(** A known colour with a series of another colour, and an unknown colour. *)
Lemma validate_colour_then_series_witness :
  App.validate_inputs "AT0004" "a" "0001" "0003"
  = Raise (ValueError "Invalid series for AT0004. Allowed: D, H, L, P, T, X")
  /\ App.validate_inputs "AT0009" "a" "0001" "0003"
     = Raise (ValueError
                "Invalid colour code. Choose one of the listed AT000X values.").
Proof.
  destruct (validate_colour_then_series "AT0004" "a" "0001" "0003")
    as (_ & Hknown & _).
  destruct (validate_colour_then_series "AT0009" "a" "0001" "0003")
    as (Hunknown & _).
  split.
  - destruct Hknown as (allowed & Hallowed & _ & Hbad).
    { apply (bool_decide_unpack _). vm_compute. reflexivity. }
    rewrite Hbad.
    + vm_compute in Hallowed. injection Hallowed as <-. reflexivity.
    + vm_compute in Hallowed. injection Hallowed as <-.
      apply (bool_decide_unpack _). vm_compute. reflexivity.
  - apply Hunknown. apply (bool_decide_unpack _). vm_compute. reflexivity.
Defined.

(** ** Serial numbers *)

Lemma isdigit_char_value (c : ascii) :
  isdigit_char c = true -> (0 <= digit_value c <= 9)%Z.
Proof.
  unfold isdigit_char, digit_value. rewrite andb_true_iff, !N.leb_le. lia.
Qed.

Lemma digit_value_inj (c d : ascii) : digit_value c = digit_value d -> c = d.
Proof.
  unfold digit_value, ord. intros Heq.
  rewrite <- (ascii_N_embedding c), <- (ascii_N_embedding d).
  f_equal. lia.
Qed.

Lemma four_chars (s : string) :
  String.length s = 4%nat ->
  exists a b c d, s = String a (String b (String c (String d EmptyString))).
Proof.
  destruct s as [|a [|b [|c [|d [|]]]]]; try discriminate. eauto.
Qed.

Lemma int_four (a b c d : ascii) :
  int (String a (String b (String c (String d EmptyString))))
  = (1000 * digit_value a + 100 * digit_value b + 10 * digit_value c
     + digit_value d)%Z.
Proof.
  unfold int, int_from, digit_value. lia.
Qed.

Lemma isdigit_four (a b c d : ascii) :
  isdigit (String a (String b (String c (String d EmptyString)))) = true ->
  isdigit_char a = true /\ isdigit_char b = true
  /\ isdigit_char c = true /\ isdigit_char d = true.
Proof.
  cbn. rewrite !andb_true_iff. tauto.
Qed.

Lemma int_four_digits_range (s : string) :
  String.length s = 4%nat -> isdigit s = true -> (0 <= int s <= 9999)%Z.
Proof.
  intros Hlen Hdig. destruct (four_chars s Hlen) as (a & b & c & d & ->).
  apply isdigit_four in Hdig as (Ha & Hb & Hc & Hd).
  apply isdigit_char_value in Ha, Hb, Hc, Hd. rewrite int_four. lia.
Qed.

Lemma int_four_digits_inj (s t : string) :
  String.length s = 4%nat -> isdigit s = true ->
  String.length t = 4%nat -> isdigit t = true ->
  int s = int t -> s = t.
Proof.
  intros Hs Hsd Ht Htd Heq.
  destruct (four_chars s Hs) as (a & b & c & d & ->).
  destruct (four_chars t Ht) as (a' & b' & c' & d' & ->).
  apply isdigit_four in Hsd as (Ha & Hb & Hc & Hd).
  apply isdigit_four in Htd as (Ha' & Hb' & Hc' & Hd').
  apply isdigit_char_value in Ha, Hb, Hc, Hd, Ha', Hb', Hc', Hd'.
  rewrite !int_four in Heq.
  assert (digit_value a = digit_value a' /\ digit_value b = digit_value b'
          /\ digit_value c = digit_value c' /\ digit_value d = digit_value d')
    as (Ea & Eb & Ec & Ed) by lia.
  apply digit_value_inj in Ea, Eb, Ec, Ed. congruence.
Qed.

Lemma format_04d_checked :
  forallb four_digits_of (seqZ 0 10000) = true.
Proof. vm_compute. reflexivity. Qed.

Lemma format_04d_four_digits (i : Z) :
  (0 <= i <= 9999)%Z ->
  String.length (format_04d i) = 4%nat
  /\ isdigit (format_04d i) = true
  /\ int (format_04d i) = i.
Proof.
  intros Hi. pose proof format_04d_checked as Hall.
  rewrite forallb_forall in Hall.
  specialize (Hall i). unfold four_digits_of in Hall.
  rewrite !andb_true_iff, Nat.eqb_eq, Z.eqb_eq in Hall.
  assert (Hin : In i (seqZ 0 10000)).
  { apply list_elem_of_In, elem_of_seqZ. lia. }
  specialize (Hall Hin). tauto.
Qed.

Lemma format_04d_int (s : string) :
  String.length s = 4%nat -> isdigit s = true -> format_04d (int s) = s.
Proof.
  intros Hlen Hdig.
  pose proof (int_four_digits_range s Hlen Hdig) as Hrange.
  destruct (format_04d_four_digits (int s) Hrange) as (Hl & Hd & Hi).
  apply int_four_digits_inj; assumption.
Qed.

Lemma validate_numbers_four_digits (series start_num end_num : string) :
  String.length start_num = 4%nat -> String.length end_num = 4%nat ->
  isdigit start_num = true -> isdigit end_num = true ->
  (1 <= int start_num <= 9999)%Z -> (1 <= int end_num <= 9999)%Z ->
  App.validate_numbers series start_num end_num
  = if (int end_num <? int start_num)%Z then
      Raise (ValueError
               "End number must be greater than or equal to Start number.")
    else Ok (series, int start_num, int end_num).
Proof.
  intros Hs He Hsd Hed Hsr Her. unfold App.validate_numbers, len.
  destruct start_num as [|a s']; [discriminate|].
  destruct end_num as [|b e']; [discriminate|].
  cbn [String.eqb negb andb].
  rewrite Hs, He, Hsd, Hed. cbn [Z.of_nat Pos.of_succ_nat Pos.succ Z.eqb Pos.eqb negb orb].
  replace (1 <=? int (String a s'))%Z with true by (symmetry; apply Z.leb_le; lia).
  replace (int (String a s') <=? 9999)%Z with true by (symmetry; apply Z.leb_le; lia).
  replace (1 <=? int (String b e'))%Z with true by (symmetry; apply Z.leb_le; lia).
  replace (int (String b e') <=? 9999)%Z with true by (symmetry; apply Z.leb_le; lia).
  reflexivity.
Qed.

(** C4.  For a known colour and an allowed series, and for start and end
    strings of exactly four decimal digits whose values [s] and [e] are
    between 1 and 9999: the strings are the four-digit prints of [s] and
    [e]; when [s <= e] validation succeeds and returns the normalised
    series with [s] and [e]; when [e < s] it fails with the message that
    End must be greater than or equal to Start. *)
Theorem validate_well_ordered_range
    (color_code series start_num end_num : string) (allowed : list string) :
  color_code ∈ dom App.COLOURS ->
  App.SERIES_BY_SKU !! color_code = Some allowed ->
  upper (strip series) ∈ allowed ->
  String.length start_num = 4%nat -> String.length end_num = 4%nat ->
  isdigit start_num = true -> isdigit end_num = true ->
  (1 <= int start_num <= 9999)%Z -> (1 <= int end_num <= 9999)%Z ->
  (format_04d (int start_num) = start_num
   /\ format_04d (int end_num) = end_num)
  /\ ((int start_num <= int end_num)%Z ->
      App.validate_inputs color_code series start_num end_num
      = Ok (upper (strip series), int start_num, int end_num))
  /\ ((int end_num < int start_num)%Z ->
      App.validate_inputs color_code series start_num end_num
      = Raise (ValueError
                 "End number must be greater than or equal to Start number.")).
Proof.
  intros Hin Hallowed Hser Hs He Hsd Hed Hsr Her.
  split; [split; apply format_04d_int; assumption|].
  rewrite (validate_known_colour _ _ _ _ _ Hin Hallowed).
  rewrite bool_decide_eq_false_2 by (intros Hnot; exact (Hnot Hser)).
  rewrite validate_numbers_four_digits by assumption.
  split; intros Hord.
  - replace (int end_num <? int start_num)%Z with false
      by (symmetry; apply Z.ltb_ge; lia).
    reflexivity.
  - replace (int end_num <? int start_num)%Z with true
      by (symmetry; apply Z.ltb_lt; lia).
    reflexivity.
Qed.

(** The range 0001-0003 of series D, in order and reversed. *)
Lemma validate_well_ordered_range_witness :
  App.validate_inputs "AT0004" " d " "0001" "0003" = Ok ("D", 1%Z, 3%Z)
  /\ App.validate_inputs "AT0004" " d " "0003" "0001"
     = Raise (ValueError
                "End number must be greater than or equal to Start number.").
Proof.
  assert (Hin : "AT0004" ∈ dom App.COLOURS)
    by (apply (bool_decide_unpack _); vm_compute; reflexivity).
  assert (Hallowed : App.SERIES_BY_SKU !! "AT0004" = Some (chars "DHLPTX"))
    by (vm_compute; reflexivity).
  assert (Hser : upper (strip " d ") ∈ chars "DHLPTX")
    by (apply (bool_decide_unpack _); vm_compute; reflexivity).
  assert (H1 : (1 <= int "0001" <= 9999)%Z) by (vm_compute; split; discriminate).
  assert (H3 : (1 <= int "0003" <= 9999)%Z) by (vm_compute; split; discriminate).
  split.
  - apply (validate_well_ordered_range "AT0004" " d " "0001" "0003"
             (chars "DHLPTX") Hin Hallowed Hser eq_refl eq_refl eq_refl eq_refl
             H1 H3).
    vm_compute. discriminate.
  - apply (validate_well_ordered_range "AT0004" " d " "0003" "0001"
             (chars "DHLPTX") Hin Hallowed Hser eq_refl eq_refl eq_refl eq_refl
             H3 H1).
    vm_compute. reflexivity.
Defined.

End Validation.

(** ** The batch *)

Section Documents.
Local Open Scope string_scope.

Lemma barcode_texts_app {T : Type} (c c' : canvas T) :
  barcode_texts (c ++ c')%list = (barcode_texts c ++ barcode_texts c')%list.
Proof.
  induction c as [|o c IH]; [reflexivity|].
  destruct o; cbn; rewrite IH; reflexivity.
Qed.

Lemma pages_app {T : Type} (c c' : canvas T) :
  pages (c ++ c')%list = (pages c + pages c')%nat.
Proof.
  induction c as [|o c IH]; [reflexivity|].
  destruct o; cbn; rewrite IH; reflexivity.
Qed.

Section Batch.
Variable a : arithmetic.
Variable cw : string -> num a -> num a -> num a.
Variable sw : string -> string -> Z -> num a.

Lemma draw_single_label_total (c : canvas (num a)) (text color : string) :
  exists c' : canvas (num a),
    App.draw_single_label cw sw c text color = Ok c'
    /\ barcode_texts c' = (barcode_texts c ++ [text])%list
    /\ pages c' = pages c.
Proof.
  destruct (geometry_total a cw sw text color) as [g Hg].
  unfold App.draw_single_label. rewrite Hg. eexists. split; [reflexivity|].
  rewrite barcode_texts_app, pages_app. cbn. split; [reflexivity|lia].
Qed.

Lemma page_total (color_code series color_name : string)
    (c : canvas (num a)) (i : Z) :
  exists c' : canvas (num a),
    App.page cw sw color_code series color_name c i = Ok c'
    /\ barcode_texts c'
       = (barcode_texts c
          ++ [(color_code ++ "-" ++ series ++ format_04d i)%string])%list
    /\ pages c' = S (pages c).
Proof.
  unfold App.page.
  destruct (draw_single_label_total c
              (color_code ++ "-" ++ series ++ format_04d i) color_name)
    as (c' & -> & Htexts & Hpages).
  eexists. split; [reflexivity|].
  rewrite barcode_texts_app, pages_app, Htexts, Hpages. cbn.
  rewrite app_nil_r. split; [reflexivity|lia].
Qed.

Lemma for_each_page (color_code series color_name : string) (l : list Z) :
  forall c : canvas (num a),
  exists c' : canvas (num a),
    for_each (App.page cw sw color_code series color_name) l c = Ok c'
    /\ barcode_texts c'
       = (barcode_texts c
          ++ map (fun i => (color_code ++ "-" ++ series ++ format_04d i)%string)
               l)%list
    /\ pages c' = (pages c + length l)%nat.
Proof.
  induction l as [|i l IH]; intros c.
  - exists c. cbn. rewrite app_nil_r. split; [reflexivity|]. split; [reflexivity|lia].
  - destruct (page_total color_code series color_name c i)
      as (c1 & Hpage & Htexts & Hpages).
    destruct (IH c1) as (c' & Hloop & Htexts' & Hpages').
    exists c'. cbn [for_each]. rewrite Hpage. split; [exact Hloop|].
    rewrite Htexts', Htexts, Hpages', Hpages, <- app_assoc. cbn.
    split; [reflexivity|lia].
Qed.

End Batch.

Lemma validate_numbers_ok (series start_num end_num ser : string) (s e : Z) :
  App.validate_numbers series start_num end_num = Ok (ser, s, e) ->
  ser = series /\ s = int start_num /\ e = int end_num
  /\ (1 <= s <= e)%Z /\ (e <= 9999)%Z
  /\ String.length start_num = 4%nat /\ String.length end_num = 4%nat
  /\ isdigit start_num = true /\ isdigit end_num = true.
Proof.
  unfold App.validate_numbers, len.
  destruct (negb (negb (start_num =? "") && negb (end_num =? ""))); [discriminate|].
  destruct (Z.of_nat (String.length start_num) =? 4)%Z eqn:Hs; [|discriminate].
  destruct (Z.of_nat (String.length end_num) =? 4)%Z eqn:He; [|discriminate].
  destruct (isdigit start_num) eqn:Hsd; [|discriminate].
  destruct (isdigit end_num) eqn:Hed; [|discriminate].
  cbn [negb orb].
  destruct (1 <=? int start_num)%Z eqn:H1; [|discriminate].
  destruct (int start_num <=? 9999)%Z eqn:H2; [|discriminate].
  destruct (1 <=? int end_num)%Z eqn:H3; [|discriminate].
  destruct (int end_num <=? 9999)%Z eqn:H4; [|discriminate].
  cbn [negb andb].
  destruct (int end_num <? int start_num)%Z eqn:H5; [discriminate|].
  intros [= <- <- <-].
  apply Z.eqb_eq in Hs, He. apply Z.leb_le in H1, H2, H3, H4.
  apply Z.ltb_ge in H5. repeat split; try lia.
Qed.

Lemma validate_inputs_ok (color_code series start_num end_num ser : string)
    (s e : Z) :
  App.validate_inputs color_code series start_num end_num = Ok (ser, s, e) ->
  color_code ∈ dom App.COLOURS
  /\ App.validate_numbers (upper (strip series)) start_num end_num
     = Ok (ser, s, e).
Proof.
  intros Hok.
  destruct (decide (color_code ∈ dom App.COLOURS)) as [Hin|Hnot].
  - split; [exact Hin|].
    destruct (getitem_series _ Hin) as [allowed Hl].
    rewrite (validate_known_colour _ _ _ _ _ Hin Hl) in Hok.
    case_bool_decide; [discriminate|]. exact Hok.
  - rewrite validate_unknown_colour in Hok by exact Hnot. discriminate.
Qed.

Lemma index_validated (a : arithmetic)
    (cw : string -> num a -> num a -> num a)
    (sw : string -> string -> Z -> num a)
    (form_color_code form_series form_start_num form_end_num ser : string)
    (s e : Z) :
  App.validate_inputs (strip form_color_code) (strip form_series)
    (strip form_start_num) (strip form_end_num) = Ok (ser, s, e) ->
  exists (pdf : canvas (num a)) (download_name : string),
    App.index cw sw form_color_code form_series form_start_num form_end_num
    = Ok (App.SendFile pdf download_name)
    /\ barcode_texts pdf
       = map (fun i => (strip form_color_code ++ "-" ++ ser ++ format_04d i)%string)
           (seqZ s (e - s + 1))
    /\ length (barcode_texts pdf) = Z.to_nat (e - s + 1)
    /\ pages pdf = Z.to_nat (e - s + 1)
    /\ (1 <= s <= e)%Z /\ (e <= 9999)%Z
    /\ (forall i : Z, (s <= i <= e)%Z ->
          String.length (format_04d i) = 4%nat /\ int (format_04d i) = i).
Proof.
  intros Hok. unfold App.index. rewrite Hok.
  apply validate_inputs_ok in Hok as (Hin & Hnum).
  apply validate_numbers_ok in Hnum as (_ & _ & _ & Hse & He & _).
  apply elem_of_dom in Hin as [color_name Hname].
  unfold App.getitem. rewrite Hname. cbn [mbind result_bind].
  destruct (for_each_page a cw sw (strip form_color_code) ser color_name
              (range s (e + 1)) [NewCanvas (App.PAGE_W, App.PAGE_H)])
    as (c' & -> & Htexts & Hpages).
  unfold range in *. replace (e + 1 - s)%Z with (e - s + 1)%Z in * by lia.
  do 2 eexists. split; [reflexivity|].
  rewrite barcode_texts_app, pages_app, Htexts, Hpages. cbn.
  rewrite app_nil_r, length_map, length_seqZ.
  repeat split; try lia.
  - apply format_04d_four_digits. lia.
  - apply format_04d_four_digits. lia.
Qed.

(** C6.  In both arithmetics: when the stripped form fields validate to the
    series [ser] and the numbers [s <= e], [index] answers with a document
    whose barcode texts are [color-ser] followed by the four-digit print of
    [i], for [i] from [s] to [e] in ascending order, [e - s + 1] texts on
    as many pages.  The range AT0004, D, 0001 to 0003 gives the texts
    AT0004-D0001, AT0004-D0002, AT0004-D0003 in that order, on three
    pages. *)
Theorem batch_one_label_per_serial :
  (forall (a : arithmetic) (cw : string -> num a -> num a -> num a)
      (sw : string -> string -> Z -> num a)
      (form_color_code form_series form_start_num form_end_num ser : string)
      (s e : Z),
      App.validate_inputs (strip form_color_code) (strip form_series)
        (strip form_start_num) (strip form_end_num) = Ok (ser, s, e) ->
      exists (pdf : canvas (num a)) (download_name : string),
        App.index cw sw form_color_code form_series form_start_num
          form_end_num = Ok (App.SendFile pdf download_name)
        /\ barcode_texts pdf
           = map (fun i =>
                    (strip form_color_code ++ "-" ++ ser ++ format_04d i)%string)
               (seqZ s (e - s + 1))
        /\ length (barcode_texts pdf) = Z.to_nat (e - s + 1)
        /\ pages pdf = Z.to_nat (e - s + 1)
        /\ (1 <= s <= e)%Z /\ (e <= 9999)%Z
        /\ (forall i : Z, (s <= i <= e)%Z ->
              String.length (format_04d i) = 4%nat /\ int (format_04d i) = i))
  /\ (forall (a : arithmetic) (cw : string -> num a -> num a -> num a)
        (sw : string -> string -> Z -> num a),
        exists (pdf : canvas (num a)) (download_name : string),
          App.index cw sw "AT0004" "D" "0001" "0003"
          = Ok (App.SendFile pdf download_name)
          /\ barcode_texts pdf
             = ["AT0004-D0001"; "AT0004-D0002"; "AT0004-D0003"]
          /\ pages pdf = 3%nat).
Proof.
  split; [exact index_validated|].
  intros a cw sw.
  destruct (index_validated a cw sw "AT0004" "D" "0001" "0003" "D" 1 3)
    as (pdf & name & Hindex & Htexts & _ & Hpages & _).
  { vm_compute. reflexivity. }
  exists pdf, name. split; [exact Hindex|]. split; [exact Htexts | exact Hpages].
Qed.

(** The range 0007-0009 on binary64 floats, with fields to normalise. *)
Lemma batch_one_label_per_serial_witness :
  App.validate_inputs (strip " AT0004 ") (strip "d") (strip "0007")
    (strip "0009") = Ok ("D", 7%Z, 9%Z)
  /\ exists (pdf : canvas float) (download_name : string),
       App.index (T:=float) (fun _ _ _ => 100%float) (fun _ _ _ => 60%float)
         " AT0004 " "d" "0007" "0009" = Ok (App.SendFile pdf download_name)
       /\ barcode_texts pdf = ["AT0004-D0007"; "AT0004-D0008"; "AT0004-D0009"]
       /\ pages pdf = 3%nat.
Proof.
  assert (Hok : App.validate_inputs (strip " AT0004 ") (strip "d")
                  (strip "0007") (strip "0009") = Ok ("D", 7%Z, 9%Z))
    by (vm_compute; reflexivity).
  split; [exact Hok|].
  destruct (proj1 batch_one_label_per_serial binary64
              (fun _ _ _ => 100%float) (fun _ _ _ => 60%float)
              " AT0004 " "d" "0007" "0009" "D" 7%Z 9%Z Hok)
    as (pdf & name & Hindex & Htexts & _ & Hpages & _).
  exists pdf, name. split; [exact Hindex|]. split; [exact Htexts | exact Hpages].
Defined.

End Documents.

(** * Further properties *)

Section Normalisation.
Local Open Scope string_scope.

Lemma isspace_upper_char (c : ascii) : isspace (upper_char c) = isspace c.
Proof.
  destruct c as [[] [] [] [] [] [] [] []]; reflexivity.
Qed.

Lemma upper_char_idempotent (c : ascii) :
  upper_char (upper_char c) = upper_char c.
Proof.
  destruct c as [[] [] [] [] [] [] [] []]; reflexivity.
Qed.

Lemma upper_idempotent (s : string) : upper (upper s) = upper s.
Proof.
  induction s as [|c s IH]; [reflexivity|].
  cbn. rewrite upper_char_idempotent, IH. reflexivity.
Qed.

Lemma lstrip_upper (s : string) : lstrip (upper s) = upper (lstrip s).
Proof.
  induction s as [|c s IH]; [reflexivity|].
  cbn. rewrite isspace_upper_char. destruct (isspace c); [exact IH|reflexivity].
Qed.

Lemma rstrip_upper (s : string) : rstrip (upper s) = upper (rstrip s).
Proof.
  induction s as [|c s IH]; [reflexivity|].
  cbn. rewrite IH, isspace_upper_char.
  destruct (rstrip s); cbn; [destruct (isspace c)|]; reflexivity.
Qed.

Lemma strip_upper (s : string) : strip (upper s) = upper (strip s).
Proof.
  unfold strip. rewrite lstrip_upper, rstrip_upper. reflexivity.
Qed.

Lemma lstrip_no_leading_space (s : string) : no_leading_space (lstrip s).
Proof.
  induction s as [|c s IH]; [exact I|].
  cbn. destruct (isspace c) eqn:E; [exact IH|exact E].
Qed.

Lemma lstrip_id (s : string) : no_leading_space s -> lstrip s = s.
Proof.
  destruct s as [|c s]; [reflexivity|]. cbn. intros ->. reflexivity.
Qed.

Lemma rstrip_no_leading_space (s : string) :
  no_leading_space s -> no_leading_space (rstrip s).
Proof.
  destruct s as [|c s]; [intros; exact I|]. cbn. intros Hc.
  destruct (rstrip s); [rewrite Hc|]; exact Hc.
Qed.

Lemma rstrip_idempotent (s : string) : rstrip (rstrip s) = rstrip s.
Proof.
  induction s as [|c s IH]; [reflexivity|].
  cbn. destruct (rstrip s) as [|d r] eqn:E.
  - destruct (isspace c) eqn:Hc; [reflexivity|]. cbn. rewrite Hc. reflexivity.
  - cbn [rstrip] in *. rewrite IH. reflexivity.
Qed.

Lemma strip_idempotent (s : string) : strip (strip s) = strip s.
Proof.
  unfold strip.
  rewrite (lstrip_id (rstrip (lstrip s))).
  - apply rstrip_idempotent.
  - apply rstrip_no_leading_space, lstrip_no_leading_space.
Qed.

Lemma normalise_idempotent (s : string) :
  upper (strip (upper (strip s))) = upper (strip s).
Proof.
  rewrite strip_upper, strip_idempotent, upper_idempotent. reflexivity.
Qed.

(** X3.  [validate_inputs] reads the series through [strip] and [upper]
    only: a series and its normalised form validate alike, so the case of
    the letter and the blanks around it make no difference. *)
Theorem validate_inputs_series_normalised
    (color_code series start_num end_num : string) :
  App.validate_inputs color_code (upper (strip series)) start_num end_num
  = App.validate_inputs color_code series start_num end_num.
Proof.
  unfold App.validate_inputs. rewrite normalise_idempotent. reflexivity.
Qed.

(** X6.  [index] gives the same answer, document and file name included,
    for the form fields as typed and for the fields stripped, the series
    upper-cased, in both arithmetics. *)
Theorem index_fields_normalised (a : arithmetic)
    (cw : string -> num a -> num a -> num a)
    (sw : string -> string -> Z -> num a)
    (form_color_code form_series form_start_num form_end_num : string) :
  App.index cw sw (strip form_color_code) (upper (strip form_series))
    (strip form_start_num) (strip form_end_num)
  = App.index cw sw form_color_code form_series form_start_num form_end_num.
Proof.
  unfold App.index. rewrite !strip_idempotent.
  replace (App.validate_inputs (strip form_color_code)
             (strip (upper (strip form_series))) (strip form_start_num)
             (strip form_end_num))
    with (App.validate_inputs (strip form_color_code) (strip form_series)
            (strip form_start_num) (strip form_end_num)); [reflexivity|].
  unfold App.validate_inputs.
  repeat (rewrite strip_upper || rewrite strip_idempotent
          || rewrite upper_idempotent).
  reflexivity.
Qed.

End Normalisation.

Section ValidationMore.
Local Open Scope string_scope.

Lemma series_table (color_code : string) (allowed : list string) :
  App.SERIES_BY_SKU !! color_code = Some allowed ->
  (color_code = "AT0001" /\ allowed = chars "CGKOSW")
  \/ (color_code = "AT0002" /\ allowed = chars "BFJNRVZ")
  \/ (color_code = "AT0003" /\ allowed = chars "AEIMQUY")
  \/ (color_code = "AT0004" /\ allowed = chars "DHLPTX").
Proof.
  intros Hl.
  assert (Hdom : color_code ∈ dom App.SERIES_BY_SKU)
    by (apply elem_of_dom; eauto).
  assert (Hcases : color_code = "AT0003" \/ color_code = "AT0002"
                   \/ color_code = "AT0001" \/ color_code = "AT0004").
  { revert Hdom. unfold App.SERIES_BY_SKU. cbn [list_to_map foldr fst snd uncurry].
    rewrite !dom_insert_L, dom_empty_L, !elem_of_union, !elem_of_singleton,
      elem_of_empty. tauto. }
  destruct Hcases as [-> | [-> | [-> | ->]]];
    vm_compute in Hl; injection Hl as <-; tauto.
Qed.

Lemma elem_of_chars (s t : string) :
  t ∈ chars s -> exists c, t = String c EmptyString /\ In c (list_ascii_of_string s).
Proof.
  induction s as [|c s IH]; cbn.
  - intros Hin. apply elem_of_nil in Hin. contradiction.
  - rewrite elem_of_cons. intros [-> | Hin]; [eauto|].
    destruct (IH Hin) as (d & -> & Hd). eauto.
Qed.

(** X4.  The series tables partition the alphabet: a series that is allowed is
    one upper-case letter, each upper-case letter is allowed for a colour
    of [COLOURS], and for one colour only. *)
Theorem series_letters_partition :
  (forall (color_code ser : string) (allowed : list string),
     App.SERIES_BY_SKU !! color_code = Some allowed -> ser ∈ allowed ->
     exists c : ascii,
       ser = String c EmptyString /\ (65 <= ord c <= 90)%N)
  /\ (forall c : ascii, (65 <= ord c <= 90)%N ->
        exists (color_code : string) (allowed : list string),
          color_code ∈ dom App.COLOURS
          /\ App.SERIES_BY_SKU !! color_code = Some allowed
          /\ String c EmptyString ∈ allowed)
  /\ (forall (c1 c2 ser : string) (l1 l2 : list string),
        App.SERIES_BY_SKU !! c1 = Some l1 ->
        App.SERIES_BY_SKU !! c2 = Some l2 ->
        ser ∈ l1 -> ser ∈ l2 -> c1 = c2).
Proof.
  split; [|split].
  - intros color_code ser allowed Hl Hin.
    destruct (series_table _ _ Hl) as [[_ ->] | [[_ ->] | [[_ ->] | [_ ->]]]];
      apply elem_of_chars in Hin as (c & -> & Hc); exists c;
      (split; [reflexivity|]); cbn in Hc;
      repeat (destruct Hc as [<- | Hc]; [vm_compute; split; discriminate|]);
      contradiction.
  - intros c Hc.
    assert (Hcase : existsb (fun k =>
              match App.SERIES_BY_SKU !! k with
              | Some l => bool_decide (String c EmptyString ∈ l)
              | None => false
              end) ["AT0001"; "AT0002"; "AT0003"; "AT0004"] = true).
    { destruct c as [[] [] [] [] [] [] [] []];
        try (vm_compute in Hc; destruct Hc as [H1 H2];
             first [now (exfalso; apply H1) | now (exfalso; apply H2)]);
        vm_compute; reflexivity. }
    apply existsb_exists in Hcase as (k & Hk & Hmem).
    destruct (App.SERIES_BY_SKU !! k) as [l|] eqn:Hl; [|discriminate].
    exists k, l. split; [|split; [exact Hl|]].
    + rewrite colours_dom, !elem_of_union, !elem_of_singleton.
      cbn in Hk. intuition.
    + apply bool_decide_eq_true in Hmem. exact Hmem.
  - intros c1 c2 ser l1 l2 H1 H2 Hin1 Hin2.
    destruct (series_table _ _ H1) as [[-> ->] | [[-> ->] | [[-> ->] | [-> ->]]]];
      destruct (series_table _ _ H2) as [[-> ->] | [[-> ->] | [[-> ->] | [-> ->]]]];
      try reflexivity; exfalso;
      apply elem_of_chars in Hin1 as (c & -> & Hc); cbn in Hc;
      repeat (destruct Hc as [<- | Hc];
              [apply (bool_decide_eq_true_2 _) in Hin2; vm_compute in Hin2;
               discriminate|]);
      contradiction.
Qed.

End ValidationMore.

Section ValidationErrors.
Local Open Scope string_scope.

(** X1.  [validate_inputs] succeeds exactly on a known colour, a series of that
    colour once stripped and upper-cased, and two strings of four digits
    whose values are ordered and start at 1 or more; it returns the
    normalised series and the two values. *)
Theorem validate_inputs_ok_iff
    (color_code series start_num end_num ser : string) (s e : Z) :
  App.validate_inputs color_code series start_num end_num = Ok (ser, s, e)
  <-> (color_code ∈ dom App.COLOURS
       /\ (exists allowed : list string,
             App.SERIES_BY_SKU !! color_code = Some allowed /\ ser ∈ allowed)
       /\ ser = upper (strip series)
       /\ String.length start_num = 4%nat /\ String.length end_num = 4%nat
       /\ isdigit start_num = true /\ isdigit end_num = true
       /\ s = int start_num /\ e = int end_num
       /\ (1 <= s <= e)%Z).
Proof.
  split.
  - intros Hok.
    pose proof (validate_inputs_ok _ _ _ _ _ _ _ Hok) as (Hin & Hnum).
    destruct (getitem_series _ Hin) as [allowed Hl].
    rewrite (validate_known_colour _ _ _ _ _ Hin Hl) in Hok.
    case_bool_decide as Hser; [discriminate|].
    apply validate_numbers_ok in Hnum
      as (-> & -> & -> & Hse & _ & Hs & He & Hsd & Hed).
    repeat split; try assumption; try lia.
    exists allowed. split; [exact Hl|].
    destruct (decide (upper (strip series) ∈ allowed)); [assumption|contradiction].
  - intros (Hin & (allowed & Hl & Hser) & -> & Hs & He & Hsd & Hed & -> & -> & Hse).
    rewrite (validate_known_colour _ _ _ _ _ Hin Hl).
    rewrite bool_decide_eq_false_2 by (intros Hnot; exact (Hnot Hser)).
    pose proof (int_four_digits_range _ Hs Hsd).
    pose proof (int_four_digits_range _ He Hed).
    rewrite validate_numbers_four_digits by (assumption || lia).
    replace (int end_num <? int start_num)%Z with false
      by (symmetry; apply Z.ltb_ge; lia).
    reflexivity.
Qed.




End ValidationErrors.

Section DocumentShape.
Local Open Scope string_scope.

Lemma validate_inputs_raises_value_error
    (color_code series start_num end_num : string) (e : exn) :
  App.validate_inputs color_code series start_num end_num = Raise e ->
  exists msg : string, e = ValueError msg.
Proof.
  destruct (decide (color_code ∈ dom App.COLOURS)) as [Hin|Hnot].
  - destruct (getitem_series _ Hin) as [allowed Hl].
    rewrite (validate_known_colour _ _ _ _ _ Hin Hl).
    case_bool_decide; [intros [= <-]; eauto|].
    unfold App.validate_numbers.
    repeat match goal with
           | |- context [if ?b then _ else _] => destruct b
           end; intros [= <-]; eauto.
  - rewrite validate_unknown_colour by exact Hnot. intros [= <-]. eauto.
Qed.

Variable a : arithmetic.
Variable cw : string -> num a -> num a -> num a.
Variable sw : string -> string -> Z -> num a.

Lemma page_explicit (color_code series color_name : string)
    (c : canvas (num a)) (i : Z) :
  exists g : Label.t (num a),
    App.geometry cw sw (color_code ++ "-" ++ series ++ format_04d i)
      color_name = Ok g
    /\ App.page cw sw color_code series color_name c i
       = Ok (c ++ page_ops (color_code ++ "-" ++ series ++ format_04d i) g)%list.
Proof.
  destruct (geometry_total a cw sw
              (color_code ++ "-" ++ series ++ format_04d i) color_name)
    as [g Hg].
  exists g. split; [exact Hg|].
  unfold App.page, App.draw_single_label. rewrite Hg. cbn.
  rewrite <- app_assoc. reflexivity.
Qed.

Lemma for_each_page_explicit (color_code series color_name : string)
    (l : list Z) :
  forall c : canvas (num a),
  exists gs : list (Label.t (num a)),
    Forall2 (fun i g =>
               App.geometry cw sw
                 (color_code ++ "-" ++ series ++ format_04d i) color_name
               = Ok g) l gs
    /\ for_each (App.page cw sw color_code series color_name) l c
       = Ok (c ++ concat (zip_with
                            (fun i g =>
                               page_ops
                                 (color_code ++ "-" ++ series ++ format_04d i)
                                 g) l gs))%list.
Proof.
  induction l as [|i l IH]; intros c.
  - exists []. split; [constructor|]. cbn. rewrite app_nil_r. reflexivity.
  - destruct (page_explicit color_code series color_name c i)
      as (g & Hg & Hpage).
    destruct (IH (c ++ page_ops
                         (color_code ++ "-" ++ series ++ format_04d i) g)%list)
      as (gs & Hgs & Hloop).
    exists (g :: gs). split; [constructor; assumption|].
    cbn [for_each]. rewrite Hpage. cbn [mbind result_bind].
    rewrite Hloop. cbn [zip_with concat]. rewrite <- app_assoc. reflexivity.
Qed.

End DocumentShape.

Section IndexMore.
Local Open Scope string_scope.

Lemma append_length (s t : string) :
  String.length (s ++ t) = (String.length s + String.length t)%nat.
Proof.
  induction s as [|c s IH]; [reflexivity|].
  change (S (String.length (s ++ t))
          = S (String.length s + String.length t)%nat).
  f_equal. exact IH.
Qed.

Lemma append_cancel_l (p s t : string) : p ++ s = p ++ t -> s = t.
Proof.
  induction p as [|c p IH]; [auto|].
  change (String c (p ++ s) = String c (p ++ t) -> s = t).
  intros [= H]. auto.
Qed.

Lemma format_04d_inj (i j : Z) :
  (0 <= i <= 9999)%Z -> (0 <= j <= 9999)%Z ->
  format_04d i = format_04d j -> i = j.
Proof.
  intros Hi Hj Heq.
  destruct (format_04d_four_digits i Hi) as (_ & _ & <-).
  destruct (format_04d_four_digits j Hj) as (_ & _ & <-).
  rewrite Heq. reflexivity.
Qed.

Lemma caption_texts_app {T : Type} (c c' : canvas T) :
  caption_texts (c ++ c')%list = (caption_texts c ++ caption_texts c')%list.
Proof.
  induction c as [|o c IH]; [reflexivity|].
  destruct o; cbn; rewrite IH; reflexivity.
Qed.

Variable a : arithmetic.
Variable cw : string -> num a -> num a -> num a.
Variable sw : string -> string -> Z -> num a.

(** What [index] answers once the fields are valid, spelled out. *)
Lemma index_explicit
    (form_color_code form_series form_start_num form_end_num ser : string)
    (s e : Z) :
  App.validate_inputs (strip form_color_code) (strip form_series)
    (strip form_start_num) (strip form_end_num) = Ok (ser, s, e) ->
  exists (color_name : string) (gs : list (Label.t (num a))),
    App.COLOURS !! strip form_color_code = Some color_name
    /\ Forall2 (fun i g =>
                  App.geometry cw sw
                    (strip form_color_code ++ "-" ++ ser ++ format_04d i)
                    color_name = Ok g) (seqZ s (e - s + 1)) gs
    /\ App.index cw sw form_color_code form_series form_start_num form_end_num
       = Ok (App.SendFile
               ([NewCanvas (App.PAGE_W, App.PAGE_H)]
                ++ concat (zip_with
                             (fun i g =>
                                page_ops
                                  (strip form_color_code ++ "-" ++ ser
                                   ++ format_04d i) g)
                             (seqZ s (e - s + 1)) gs)
                ++ [Save])%list
               ("barcodes_" ++ strip form_color_code ++ "_" ++ ser
                ++ format_04d s ++ "-" ++ ser ++ format_04d e ++ ".pdf")).
Proof.
  intros Hok. unfold App.index. rewrite Hok.
  apply validate_inputs_ok in Hok as (Hin & _).
  apply elem_of_dom in Hin as [color_name Hname].
  unfold App.getitem. rewrite Hname. cbn [mbind result_bind].
  destruct (for_each_page_explicit a cw sw (strip form_color_code) ser
              color_name (range s (e + 1))
              [NewCanvas (App.PAGE_W, App.PAGE_H)])
    as (gs & Hgs & ->).
  unfold range in *. replace (e + 1 - s)%Z with (e - s + 1)%Z in * by lia.
  exists color_name, gs. split; [reflexivity|]. split; [exact Hgs|].
  cbn [mbind result_bind]. rewrite <- app_assoc. reflexivity.
Qed.

End IndexMore.

Section IndexTheorems.
Local Open Scope string_scope.

(** X5.  [index] answers every POST: with a redirect that flashes the message of
    the [ValueError] when validation fails, with a PDF when it succeeds.
    No [KeyError] or [ZeroDivisionError] escapes, in either arithmetic and
    whatever the encoder returns. *)
Theorem index_never_raises (a : arithmetic)
    (cw : string -> num a -> num a -> num a)
    (sw : string -> string -> Z -> num a)
    (form_color_code form_series form_start_num form_end_num : string) :
  (exists msg : string,
     App.validate_inputs (strip form_color_code) (strip form_series)
       (strip form_start_num) (strip form_end_num) = Raise (ValueError msg)
     /\ App.index cw sw form_color_code form_series form_start_num
          form_end_num = Ok (App.Redirect msg))
  \/ (exists (ser : string) (s e : Z) (pdf : canvas (num a))
        (download_name : string),
        App.validate_inputs (strip form_color_code) (strip form_series)
          (strip form_start_num) (strip form_end_num) = Ok (ser, s, e)
        /\ App.index cw sw form_color_code form_series form_start_num
             form_end_num = Ok (App.SendFile pdf download_name)).
Proof.
  destruct (App.validate_inputs (strip form_color_code) (strip form_series)
              (strip form_start_num) (strip form_end_num))
    as [[[ser s] e]|err] eqn:Hv.
  - right.
    destruct (index_explicit a cw sw _ _ _ _ _ _ _ Hv)
      as (name & gs & _ & _ & Hindex).
    do 5 eexists. split; [reflexivity | exact Hindex].
  - left. destruct (validate_inputs_raises_value_error _ _ _ _ _ Hv)
      as [msg ->].
    exists msg. split; [reflexivity|].
    unfold App.index. rewrite Hv. reflexivity.
Qed.



End IndexTheorems.

Section IndexDocument.
Local Open Scope string_scope.

Lemma page_ops_texts {T : Type} (text : string) (g : Label.t T) :
  barcode_texts (page_ops text g) = [text]
  /\ caption_texts (page_ops text g) = [Label.label_text g]
  /\ pages (page_ops text g) = 1%nat
  /\ length (page_ops text g) = 5%nat.
Proof. repeat split. Qed.

Lemma concat_pages_length {T : Type} (f : Z -> string) (l : list Z) :
  forall gs : list (Label.t T),
  length l = length gs ->
  length (concat (zip_with (fun i g => page_ops (f i) g) l gs))
  = (5 * length l)%nat.
Proof.
  induction l as [|i l IH]; intros [|g gs] Hlen; try discriminate; [reflexivity|].
  cbn [zip_with concat]. rewrite length_app, IH by (cbn in Hlen; lia).
  cbn. lia.
Qed.

Lemma concat_pages_captions (a : arithmetic)
    (cw : string -> num a -> num a -> num a)
    (sw : string -> string -> Z -> num a)
    (f : Z -> string) (color_name : string) (l : list Z) :
  forall gs : list (Label.t (num a)),
  Forall2 (fun i g => App.geometry cw sw (f i) color_name = Ok g) l gs ->
  caption_texts (concat (zip_with (fun i g => page_ops (f i) g) l gs))
  = map (fun i => f i ++ " | " ++ color_name) l.
Proof.
  induction l as [|i l IH]; intros gs Hgs; inversion Hgs as [|? g ? gs' Hg Hgs']; subst;
    [reflexivity|].
  cbn [zip_with concat map]. rewrite caption_texts_app, (IH _ Hgs').
  apply geometry_inv in Hg as (_ & _ & _ & _ & _ & Htext).
  cbn. rewrite Htext. reflexivity.
Qed.

(** X8.  The document of a valid request: the canvas is created with the page
    size [(PAGE_W, PAGE_H)]; then, for each serial number from [s] to [e] in
    order, come the bars of its text with the geometry of
    [draw_single_label], the black fill, the font, the caption and
    [showPage]; [save] ends it.  That is [5 * (e - s + 1) + 2] operations,
    for at most 9999 pages, and every caption is the barcode text, a bar,
    and the name of the colour. *)
Theorem index_document (a : arithmetic)
    (cw : string -> num a -> num a -> num a)
    (sw : string -> string -> Z -> num a)
    (form_color_code form_series form_start_num form_end_num ser : string)
    (s e : Z) :
  App.validate_inputs (strip form_color_code) (strip form_series)
    (strip form_start_num) (strip form_end_num) = Ok (ser, s, e) ->
  exists (color_name download_name : string) (gs : list (Label.t (num a))),
    let text := fun i : Z =>
      strip form_color_code ++ "-" ++ ser ++ format_04d i in
    let pdf :=
      ([NewCanvas (App.PAGE_W, App.PAGE_H)]
       ++ concat (zip_with (fun i g => page_ops (text i) g)
                    (seqZ s (e - s + 1)) gs)
       ++ [Save])%list in
    App.COLOURS !! strip form_color_code = Some color_name
    /\ Forall2 (fun i g => App.geometry cw sw (text i) color_name = Ok g)
         (seqZ s (e - s + 1)) gs
    /\ App.index cw sw form_color_code form_series form_start_num form_end_num
       = Ok (App.SendFile pdf download_name)
    /\ length pdf = Z.to_nat (5 * (e - s + 1) + 2)
    /\ (Z.of_nat (pages pdf) <= 9999)%Z
    /\ caption_texts pdf
       = map (fun t => t ++ " | " ++ color_name) (barcode_texts pdf).
Proof.
  intros Hok.
  destruct (index_explicit a cw sw _ _ _ _ _ _ _ Hok)
    as (name & gs & Hname & Hgs & Hindex).
  destruct (index_validated a cw sw _ _ _ _ _ _ _ Hok)
    as (pdf' & name' & Hindex' & Htexts & _ & Hpages & Hse & He & _).
  exists name. eexists. exists gs. cbn zeta.
  split; [exact Hname|]. split; [exact Hgs|]. split; [exact Hindex|].
  match type of Hindex with
  | _ = Ok (App.SendFile ?p _) => set (pdf := p) in *
  end.
  assert (Hpdf : pdf' = pdf) by congruence. subst pdf'.
  split; [|split].
  - unfold pdf. rewrite !length_app, concat_pages_length
      by (eapply Forall2_length; exact Hgs).
    rewrite length_seqZ. cbn. lia.
  - rewrite Hpages. lia.
  - rewrite Htexts. unfold pdf. rewrite !caption_texts_app.
    rewrite (concat_pages_captions a cw sw _ name _ _ Hgs).
    cbn. rewrite app_nil_r, map_map. reflexivity.
Qed.

(** Two labels of the Black series C on binary64 floats. *)
Lemma index_document_witness :
  App.validate_inputs (strip "AT0001") (strip "c") (strip "0009")
    (strip "0010") = Ok ("C", 9%Z, 10%Z)
  /\ exists (pdf : canvas float) (download_name : string),
       App.index (T:=float) (fun _ _ _ => 100%float) (fun _ _ _ => 60%float)
         "AT0001" "c" "0009" "0010" = Ok (App.SendFile pdf download_name)
       /\ length pdf = 12%nat
       /\ caption_texts pdf
          = map (fun t => t ++ " | Black") (barcode_texts pdf).
Proof.
  assert (Hok : App.validate_inputs (strip "AT0001") (strip "c")
                  (strip "0009") (strip "0010") = Ok ("C", 9%Z, 10%Z))
    by (vm_compute; reflexivity).
  split; [exact Hok|].
  destruct (index_document binary64 (fun _ _ _ => 100%float)
              (fun _ _ _ => 60%float) "AT0001" "c" "0009" "0010" "C" 9 10 Hok)
    as (name & dl & gs & Hname & Hgs & Hindex & Hlen & _ & Hcap).
  vm_compute in Hname. injection Hname as <-.
  do 2 eexists. split; [exact Hindex|]. split; [exact Hlen | exact Hcap].
Defined.

(** X9.  The labels of a document are pairwise distinct, and each barcode text
    has twelve characters: the six of the colour code, the hyphen, the
    series letter and four digits. *)
Theorem index_labels_distinct (a : arithmetic)
    (cw : string -> num a -> num a -> num a)
    (sw : string -> string -> Z -> num a)
    (form_color_code form_series form_start_num form_end_num ser : string)
    (s e : Z) :
  App.validate_inputs (strip form_color_code) (strip form_series)
    (strip form_start_num) (strip form_end_num) = Ok (ser, s, e) ->
  exists (pdf : canvas (num a)) (download_name : string),
    App.index cw sw form_color_code form_series form_start_num form_end_num
    = Ok (App.SendFile pdf download_name)
    /\ NoDup (barcode_texts pdf)
    /\ Forall (fun text => String.length text = 12%nat) (barcode_texts pdf).
Proof.
  intros Hok.
  destruct (index_validated a cw sw _ _ _ _ _ _ _ Hok)
    as (pdf & name & Hindex & Htexts & _ & _ & Hse & He & _).
  exists pdf, name. split; [exact Hindex|]. rewrite Htexts.
  apply validate_inputs_ok_iff in Hok
    as (Hin & (allowed & Hl & Hser) & _).
  split.
  - change (NoDup ((fun i => strip form_color_code ++ "-" ++ ser
                             ++ format_04d i) <$> seqZ s (e - s + 1))).
    apply NoDup_fmap_2_strong; [|apply NoDup_seqZ].
    intros i j Hi Hj Heq. apply elem_of_seqZ in Hi, Hj.
    do 3 apply append_cancel_l in Heq.
    apply format_04d_inj in Heq; [exact Heq|lia|lia].
  - apply Forall_forall. intros text Htext.
    apply list_elem_of_In, in_map_iff in Htext as (i & <- & Hi).
    apply list_elem_of_In, elem_of_seqZ in Hi.
    destruct (format_04d_four_digits i) as (Hlen & _); [lia|].
    rewrite !append_length, Hlen.
    destruct (series_table _ _ Hl) as [[_ ->] | [[_ ->] | [[_ ->] | [_ ->]]]];
      apply elem_of_chars in Hser as (c & -> & _);
      apply colours_cases in Hin as [-> | [-> | [-> | ->]]]; reflexivity.
Qed.

(** Five labels of the White series Q across 0999 and 1000. *)
Lemma index_labels_distinct_witness :
  App.validate_inputs (strip "AT0003") (strip "q") (strip "0998")
    (strip "1002") = Ok ("Q", 998%Z, 1002%Z)
  /\ exists (pdf : canvas float) (download_name : string),
       App.index (T:=float) (fun _ _ _ => 100%float) (fun _ _ _ => 60%float)
         "AT0003" "q" "0998" "1002" = Ok (App.SendFile pdf download_name)
       /\ NoDup (barcode_texts pdf).
Proof.
  assert (Hok : App.validate_inputs (strip "AT0003") (strip "q")
                  (strip "0998") (strip "1002") = Ok ("Q", 998%Z, 1002%Z))
    by (vm_compute; reflexivity).
  split; [exact Hok|].
  destruct (index_labels_distinct binary64 (fun _ _ _ => 100%float)
              (fun _ _ _ => 60%float) "AT0003" "q" "0998" "1002" "Q" 998 1002
              Hok)
    as (pdf & name & Hindex & Hnodup & _).
  exists pdf, name. split; [exact Hindex | exact Hnodup].
Defined.

End IndexDocument.

Section GeometryMore.
Local Open Scope Q_scope.

(** X10.  In exact arithmetic the bars and their two quiet zones lie between the
    left and the right margin for every text: the bars start one quiet zone
    after the left margin, and they end one quiet zone or more before the
    right margin, exactly one in the overflow case. *)
Theorem symbol_between_side_margins
    (cw : string -> Q -> Q -> Q) (sw : string -> string -> Z -> Q)
    (text color : string) :
  exists g : Label.t Q,
    App.geometry cw sw text color = Ok g
    /\ Label.x g == App.left_margin + Label.internal_quiet g
    /\ Label.x g + cw text App.bar_height (lit 1.0) * Label.bar_width g
       + Label.internal_quiet g <= App.PAGE_W - App.right_margin
    /\ (App.usable_w < App.width_at_xmin (cw text App.bar_height (lit 1.0)) ->
        Label.x g + cw text App.bar_height (lit 1.0) * Label.bar_width g
        + Label.internal_quiet g == App.PAGE_W - App.right_margin).
Proof.
  set (m := cw text App.bar_height (lit 1.0)).
  assert (Hpage : App.PAGE_W - App.right_margin
                  == App.left_margin + App.usable_w)
    by (vm_compute; reflexivity).
  destruct (nle (App.width_at_xmin m) App.usable_w) eqn:Hle.
  - eexists. split; [apply geometry_of_fit, fit_fits; exact Hle|].
    cbn [Label.x Label.internal_quiet Label.bar_width nadd Q_Number].
    fold m. split; [reflexivity|].
    apply nle_Q in Hle. split.
    + rewrite Hpage. unfold App.width_at_xmin in Hle.
      cbn [nadd nmul lit Q_Number] in Hle. lra.
    + intros Hover. lra.
  - apply nle_Q_false in Hle.
    pose proof (overflow_positive m Hle) as Hpos.
    assert (Hnz : ~ m == 0) by lra.
    eexists. split.
    { apply geometry_of_fit, fit_overflow; [apply nle_Q_false; exact Hle|].
      apply not_true_iff_false. rewrite nzero_Q. exact Hnz. }
    cbn [Label.x Label.internal_quiet Label.bar_width nadd ndiv Q_Number].
    fold m. split; [reflexivity|].
    assert (Hfill : App.left_margin + App.safety_quiet App.usable_w
                    + m * (App.available_for_bars App.usable_w / m)
                    + App.safety_quiet App.usable_w
                    == App.PAGE_W - App.right_margin).
    { rewrite Qmult_div_r by exact Hnz.
      rewrite available_for_bars_usable_w, Hpage. ring. }
    split; [rewrite Hfill; lra | intros _; exact Hfill].
Qed.

(** X11.  In exact arithmetic the bar width is the minimum module in the fits
    case and below 323/310 of it in every case: the bars are never more
    than 4.2% wider than 0.30 mm. *)
Theorem bar_width_upper_bound
    (cw : string -> Q -> Q -> Q) (sw : string -> string -> Z -> Q)
    (text color : string) :
  exists g : Label.t Q,
    App.geometry cw sw text color = Ok g
    /\ Label.bar_width g < (323 # 310) * App.X_MIN_PT
    /\ (App.width_at_xmin (cw text App.bar_height (lit 1.0)) <= App.usable_w ->
        Label.bar_width g = App.X_MIN_PT).
Proof.
  set (m := cw text App.bar_height (lit 1.0)).
  destruct (nle (App.width_at_xmin m) App.usable_w) eqn:Hle.
  - eexists. split; [apply geometry_of_fit, fit_fits; exact Hle|].
    cbn [Label.bar_width]. split; [vm_compute; reflexivity|reflexivity].
  - apply nle_Q_false in Hle.
    pose proof (overflow_positive m Hle) as Hpos.
    assert (Hnz : ~ m == 0) by lra.
    eexists. split.
    { apply geometry_of_fit, fit_overflow; [apply nle_Q_false; exact Hle|].
      apply not_true_iff_false. rewrite nzero_Q. exact Hnz. }
    cbn [Label.bar_width ndiv Q_Number]. fold m. split.
    + apply Qdiv_lt_iff; [exact Hpos|].
      apply overflow_iff in Hle.
      exact_value (App.available_for_bars (T:=Q) App.usable_w).
      exact_layout. lra.
    + intros Hfit. lra.
Qed.

End GeometryMore.

Section QuietZone.

(** X12.  In both arithmetics the quiet zone of a label is one of two widths: the
    rule zone [quiet_each_side] in the fits case, the safety zone of the
    usable width in the overflow case.  It is never narrower than the
    safety zone and never wider than the rule zone. *)
Theorem quiet_zone_between_safety_and_rule (a : arithmetic)
    (cw : string -> num a -> num a -> num a)
    (sw : string -> string -> Z -> num a) (text color : string) :
  exists g : Label.t (num a),
    App.geometry cw sw text color = Ok g
    /\ Label.internal_quiet g
       = (if nle (App.width_at_xmin (cw text App.bar_height (lit 1.0)))
               App.usable_w
          then App.quiet_each_side else App.safety_quiet App.usable_w)
    /\ nle (App.safety_quiet App.usable_w) (Label.internal_quiet g) = true
    /\ nle (Label.internal_quiet g) App.quiet_each_side = true.
Proof.
  destruct (geometry_total a cw sw text color) as [g Hg].
  exists g. split; [exact Hg|].
  apply geometry_inv in Hg as (Hfit & _).
  unfold App.fit, py_div in Hfit.
  destruct (nle (App.width_at_xmin (cw text App.bar_height (lit 1.0)))
              App.usable_w).
  - injection Hfit as _ <-. split; [reflexivity|].
    destruct a; split; vm_compute; reflexivity.
  - destruct (nzero (cw text App.bar_height (lit 1.0))); [discriminate|].
    injection Hfit as _ <-. split; [reflexivity|].
    destruct a; split; vm_compute; reflexivity.
Qed.

End QuietZone.

Section Caption.
Local Open Scope Q_scope.

(** X13.  In exact arithmetic the caption is centred on the page: the space left
    of it equals the space right of it, whatever the encoder and the font
    metrics return.  A caption wider than the page starts left of the page
    edge: nothing clips it. *)
Theorem caption_centred
    (cw : string -> Q -> Q -> Q) (sw : string -> string -> Z -> Q)
    (text color : string) :
  exists g : Label.t Q,
    App.geometry cw sw text color = Ok g
    /\ Label.label_text g = (text ++ " | " ++ color)%string
    /\ Label.font_name g = "Helvetica"%string /\ Label.font_size g = 8%Z
    /\ Label.caption_y g = App.bottom_margin
    /\ Label.caption_x g
       + sw (Label.label_text g) (Label.font_name g) (Label.font_size g)
       + Label.caption_x g == App.PAGE_W
    /\ (Label.caption_x g < 0
        <-> App.PAGE_W
            < sw (Label.label_text g) (Label.font_name g)
                (Label.font_size g)).
Proof.
  destruct (fit_total exact (cw text App.bar_height (lit 1.0)))
    as (bw & iq & Hfit).
  eexists. split; [apply geometry_of_fit; exact Hfit|].
  cbn [Label.label_text Label.font_name Label.font_size Label.caption_y
       Label.caption_x ndiv nsub lit Q_Number].
  set (w := sw _ _ _).
  repeat split; try reflexivity.
  - field.
  - intros Hneg.
    assert (Hx : (App.PAGE_W - w) / 2.0 == (App.PAGE_W - w) * (1 # 2)) by field.
    rewrite Hx in Hneg. lra.
  - intros Hwide.
    assert (Hx : (App.PAGE_W - w) / 2.0 == (App.PAGE_W - w) * (1 # 2)) by field.
    rewrite Hx. lra.
Qed.

End Caption.

Section ZeroDivision.
Local Open Scope Q_scope.

(** X14.  Lines 64-75 in exact arithmetic, for any usable width: the only
    exception is [ZeroDivisionError], raised exactly for a module count of
    zero on a strip narrower than the two rule quiet zones. *)
Theorem fit_raises_iff (uw m : Q) (e : exn) :
  App.fit uw m = Raise e
  <-> e = ZeroDivisionError /\ m == 0 /\ uw < 2 * App.quiet_each_side.
Proof.
  unfold App.fit, py_div.
  destruct (nle (App.width_at_xmin m) uw) eqn:Hle.
  - split; [discriminate|]. intros (_ & Hz & Hlt).
    apply nle_Q in Hle. unfold App.width_at_xmin in Hle.
    cbn [nadd nmul lit Q_Number] in Hle. rewrite Hz in Hle. lra.
  - apply nle_Q_false in Hle. unfold App.width_at_xmin in Hle.
    cbn [nadd nmul lit Q_Number] in Hle.
    destruct (nzero m) eqn:Hz.
    + apply nzero_Q in Hz. cbn. split.
      * intros [= <-]. split; [reflexivity|]. split; [exact Hz|].
        rewrite Hz in Hle. lra.
      * intros (-> & _). reflexivity.
    + cbn. split; [discriminate|]. intros (_ & Hm & _).
      apply nzero_Q in Hm. congruence.
Qed.

End ZeroDivision.

Section CustomBatch.
Local Open Scope string_scope.

Variable a : arithmetic.
Variable cw : string -> num a -> num a -> num a.
Variable sw : string -> string -> Z -> num a.

Lemma custom_geometry_total (text color : string) :
  exists g : Label.t (num a),
    MakeCustomBarcodes.geometry cw sw text color = Ok g
    /\ Label.label_text g = text ++ " | " ++ color
    /\ Label.font_name g = "Helvetica" /\ Label.font_size g = 8%Z.
Proof.
  destruct (fit_total a (cw text App.bar_height (lit 1.0))) as (bw & iq & F).
  eexists. split; [exact (geometry_of_fit cw sw text color bw iq F)|].
  cbn. auto.
Qed.

Lemma custom_draw_total (c : canvas (num a)) (text color : string) :
  exists c' : canvas (num a),
    MakeCustomBarcodes.draw_single_label cw sw c text color = Ok c'
    /\ barcode_texts c' = (barcode_texts c ++ [text])%list
    /\ caption_texts c'
       = (caption_texts c ++ [(text ++ " | " ++ color)%string])%list
    /\ pages c' = pages c.
Proof.
  destruct (custom_geometry_total text color) as (g & Hg & Htext & _).
  unfold MakeCustomBarcodes.draw_single_label. rewrite Hg.
  eexists. split; [reflexivity|].
  rewrite barcode_texts_app, caption_texts_app, pages_app. cbn.
  rewrite Htext. repeat split; try lia.
Qed.

Lemma custom_label_total (color_name : string) (c : canvas (num a)) (n : Z) :
  exists c' : canvas (num a),
    MakeCustomBarcodes.label cw sw color_name c n = Ok c'
    /\ barcode_texts c'
       = (barcode_texts c
          ++ (if in_bounds n then [("AT0004-D" ++ format_04d n)%string]
              else []))%list
    /\ caption_texts c'
       = (caption_texts c
          ++ (if in_bounds n
              then [(("AT0004-D" ++ format_04d n) ++ " | " ++ color_name)%string]
              else []))%list
    /\ pages c' = (pages c + (if in_bounds n then 1 else 0))%nat.
Proof.
  unfold MakeCustomBarcodes.label. fold (in_bounds n).
  destruct (in_bounds n); cbn [negb].
  - destruct (custom_draw_total c
                (MakeCustomBarcodes.COLOR_CODE ++ "-"
                 ++ MakeCustomBarcodes.SERIES ++ format_04d n) color_name)
      as (c' & -> & Ht & Hc & Hp).
    eexists. split; [reflexivity|].
    rewrite barcode_texts_app, caption_texts_app, pages_app, Ht, Hc, Hp.
    cbn. rewrite !app_nil_r. repeat split; try lia.
  - exists c. rewrite !app_nil_r. repeat split; try lia.
Qed.

Lemma custom_for_each_label (color_name : string) (l : list Z) :
  forall c : canvas (num a),
  exists c' : canvas (num a),
    for_each (MakeCustomBarcodes.label cw sw color_name) l c = Ok c'
    /\ barcode_texts c'
       = (barcode_texts c
          ++ map (fun n => ("AT0004-D" ++ format_04d n)%string)
               (List.filter in_bounds l))%list
    /\ caption_texts c'
       = (caption_texts c
          ++ map (fun n =>
                    (("AT0004-D" ++ format_04d n) ++ " | " ++ color_name)%string)
               (List.filter in_bounds l))%list
    /\ pages c' = (pages c + length (List.filter in_bounds l))%nat.
Proof.
  induction l as [|n l IH]; intros c.
  - exists c. cbn. rewrite !app_nil_r. repeat split; try lia.
  - destruct (custom_label_total color_name c n) as (c1 & H1 & Ht & Hc & Hp).
    destruct (IH c1) as (c' & Hloop & Ht' & Hc' & Hp').
    exists c'. cbn [for_each]. rewrite H1. split; [exact Hloop|].
    rewrite Ht', Hc', Hp', Ht, Hc, Hp, <- !app_assoc. cbn [List.filter].
    destruct (in_bounds n); cbn; repeat split; lia.
Qed.

End CustomBatch.

Section CustomMain.
Local Open Scope string_scope.

(** X15.  [draw_single_label] of [make_custom_barcodes.py], in both arithmetics
    and whatever the encoder returns: it never raises, it leaves the
    operations already on the canvas as they are, and it adds four: the
    bars of the text, the black fill, Helvetica at 8 points, and the caption
    [text | colour]. *)
Theorem custom_draw_single_label_appends (a : arithmetic)
    (cw : string -> num a -> num a -> num a)
    (sw : string -> string -> Z -> num a) (c : canvas (num a))
    (text color : string) :
  exists g : Label.t (num a),
    MakeCustomBarcodes.geometry cw sw text color = Ok g
    /\ MakeCustomBarcodes.draw_single_label cw sw c text color
       = Ok (c ++ [ DrawOn text (Label.bar_height g) (Label.bar_width g)
                      (Label.x g) (Label.y g);
                    SetFillColor "black";
                    SetFont "Helvetica" 8;
                    DrawString (Label.caption_x g) (Label.caption_y g)
                      (text ++ " | " ++ color) ])%list.
Proof.
  destruct (custom_geometry_total a cw sw text color)
    as (g & Hg & Htext & Hfn & Hfs).
  exists g. split; [exact Hg|].
  unfold MakeCustomBarcodes.draw_single_label. rewrite Hg. cbn.
  rewrite Htext, Hfn, Hfs. reflexivity.
Qed.


(** X16.  The batch script, in both arithmetics and whatever the encoder returns.
    For any list of numbers the loop of [main] never raises and prints the
    numbers between 1 and 9999, in the order of the list, repeated numbers
    repeated, each on its page with the text AT0004-D and four digits and
    the caption of colour Pink; the others are skipped without a trace.
    On [NUMBERS] nothing is skipped: [main] writes 40 pages to
    barcodes_AT0004_D_list.pdf. *)
Theorem custom_batch_prints_numbers_in_bounds (a : arithmetic)
    (cw : string -> num a -> num a -> num a)
    (sw : string -> string -> Z -> num a) :
  (forall numbers : list Z,
     exists c : canvas (num a),
       MakeCustomBarcodes.document cw sw numbers = Ok c
       /\ barcode_texts c
          = map (fun n => "AT0004-D" ++ format_04d n)
              (List.filter (fun n => (1 <=? n)%Z && (n <=? 9999)%Z) numbers)
       /\ caption_texts c
          = map (fun text => text ++ " | Pink") (barcode_texts c)
       /\ pages c = length (barcode_texts c))
  /\ (exists c : canvas (num a),
        MakeCustomBarcodes.main cw sw
        = Ok ("barcodes_AT0004_D_list.pdf", c,
              "✔ PDF written: barcodes_AT0004_D_list.pdf")
        /\ barcode_texts c
           = map (fun n => "AT0004-D" ++ format_04d n)
               MakeCustomBarcodes.NUMBERS
        /\ pages c = 40%nat).
Proof.
  assert (Hdoc : forall numbers : list Z,
     exists c : canvas (num a),
       MakeCustomBarcodes.document cw sw numbers = Ok c
       /\ barcode_texts c
          = map (fun n => "AT0004-D" ++ format_04d n)
              (List.filter in_bounds numbers)
       /\ caption_texts c
          = map (fun text => text ++ " | Pink") (barcode_texts c)
       /\ pages c = length (barcode_texts c)).
  { intros numbers. unfold MakeCustomBarcodes.document.
    assert (Hname : MakeCustomBarcodes.COLOR_NAME = Ok "Pink")
      by (vm_compute; reflexivity).
    rewrite Hname. cbn [mbind result_bind].
    destruct (custom_for_each_label a cw sw "Pink" numbers
                [NewCanvas (MakeCustomBarcodes.PAGE_W,
                            MakeCustomBarcodes.PAGE_H)])
      as (c & -> & Ht & Hc & Hp).
    eexists. split; [reflexivity|].
    rewrite barcode_texts_app, caption_texts_app, pages_app, Ht, Hc, Hp.
    cbn. rewrite !app_nil_r, map_map, length_map. repeat split; try lia. }
  split; [exact Hdoc|].
  destruct (Hdoc MakeCustomBarcodes.NUMBERS) as (c & Hc & Ht & _ & Hp).
  exists c. unfold MakeCustomBarcodes.main. rewrite Hc.
  split; [reflexivity|]. split; [exact Ht|].
  rewrite Hp, Ht. reflexivity.
Qed.

End CustomMain.
